(** * calendly-widget: the custom element of src/calendly-widget.js

    The development embeds the [CalendlyWidget] class: the [calendlyUrl]
    getter that resolves the element's attributes into the embed URL, the
    [render] method and the structure it builds in the shadow root, the
    [handleMessage] handler subscribed to the window's [message] channel and
    [updateHeight].  What the browser provides (the URL parser, the event
    loop, timers, the DOM) is modelled next to the class: values of the
    language in [JS], the URL record and its [searchParams] in [Url], the
    element tree in [Dom].

    Conventions of the model:
    - a string is the sequence of the bytes of its UTF-8 encoding and a
      Number a binary64 value;
    - a URL is its parsed record, whose query is the list of decoded
      name-value pairs; parsing and serializing are the host's;
    - the text that a template puts between the quotes of an attribute
      becomes the attribute's value as the HTML parser of the host reads
      it;
    - a node object is named by a number, so that a reference held by a
      closure still denotes its node after the shadow root was rebuilt;
    - the white space between the tags of a template makes no node, and
      an assignment [style.height = `${n}px`] is recorded by the number [n];
    - a dispatched event is recorded, as the event object that listeners
      receive, with the instance it was dispatched on; the listeners of the
      page are not part of the model. *)

From Stdlib Require Import ZArith String Ascii List Bool Lia.
From Stdlib Require Import Floats.SpecFloat.
From stdpp Require Import base option list gmap strings.

Open Scope string_scope.

(** ** Values of the language *)

Module JS.

(** A Number is an IEEE 754 binary64 value. *)
Abbreviation number := spec_float.

Definition NaN : number := S754_nan.
Definition Infinity : number := S754_infinity false.

(** The Number nearest to a mathematical integer (ties to even). *)
Definition of_Z (z : Z) : number := binary_normalize 53 1024 z 0 false.

(** [a < b] on Numbers; false when either is NaN, and [-0 < +0] is false. *)
Definition lt (a b : number) : bool := SFltb a b.

Definition is_pos_zero (a : number) : bool :=
  match a with S754_zero false => true | _ => false end.

Definition is_neg_zero (a : number) : bool :=
  match a with S754_zero true => true | _ => false end.

(** [Math.max(a, b)] on two Numbers: NaN if either is NaN, otherwise the
    larger one, where [+0] counts as larger than [-0]. *)
Definition Math_max (a b : number) : number :=
  match a, b with
  | S754_nan, _ | _, S754_nan => NaN
  | _, _ => if lt a b || (is_pos_zero b && is_neg_zero a) then b else a
  end.

(** A positive, finite Number. *)
Definition positive_finite (a : number) : Prop :=
  exists m e, a = S754_finite false m e.

Inductive error : Type :=
| TypeError (msg : string).

(** The outcome of evaluating an expression or a call. *)
Inductive completion (A : Type) : Type :=
| Normal (a : A)
| Throw (e : error).
Arguments Normal {A} a.
Arguments Throw {A} e.

(** The values that can reach the component through an attribute or a
    structured-cloned message: primitives and plain data objects.  Arrays,
    dates, maps and BigInts are left out. *)
#[warnings="-register-all"]
Inductive value : Type :=
| VUndefined
| VNull
| VBool (b : bool)
| VNum (n : number)
| VStr (s : string)
| VObj (fields : list (string * value)).

(** Truthiness, as tested by [if (x)], [!x], [x || y] and [x && y]. *)
Definition ToBoolean (v : value) : bool :=
  match v with
  | VUndefined | VNull => false
  | VBool b => b
  | VNum (S754_zero _) | VNum S754_nan => false
  | VNum _ => true
  | VStr s => negb (String.eqb s "")
  | VObj _ => true
  end.

Fixpoint own (k : string) (fields : list (string * value)) : option value :=
  match fields with
  | [] => None
  | (k', v) :: rest => if String.eqb k' k then Some v else own k rest
  end.

(** [v.k] for a data property name [k] that no prototype defines
    ([event], [payload], [height]): the own property of an object,
    [undefined] on any other value.  Never applied to [undefined] or
    [null] by the component. *)
Definition get (v : value) (k : string) : value :=
  match v with
  | VObj fields => default VUndefined (own k fields)
  | _ => VUndefined
  end.

(** [v?.k] *)
Definition get_opt (v : value) (k : string) : value :=
  match v with
  | VUndefined | VNull => VUndefined
  | _ => get v k
  end.

(** [v === 'lit'] *)
Definition is_str (v : value) (lit : string) : bool :=
  match v with
  | VStr s => String.eqb s lit
  | _ => false
  end.

Definition has_own (k : string) (fields : list (string * value)) : bool :=
  match own k fields with Some _ => true | None => false end.

(** [ToNumber], as applied by [Math.max] to its arguments.  Strings are
    converted by the host's [StringToNumber], given as [str].  A cloned
    object carries no functions: with an own [toString] property (not
    callable) the conversion to a primitive fails, otherwise the inherited
    [toString] gives ["[object Object]"], which is not numeric. *)
Definition ToNumber (str : string -> number) (v : value) : completion number :=
  match v with
  | VUndefined => Normal NaN
  | VNull => Normal (S754_zero false)
  | VBool b => Normal (if b then of_Z 1 else S754_zero false)
  | VNum n => Normal n
  | VStr s => Normal (str s)
  | VObj fields =>
      if has_own "toString" fields
      then Throw (TypeError "Cannot convert object to primitive value")
      else Normal NaN
  end.

(** [hay.includes(needle)] *)
Fixpoint includes (needle hay : string) : bool :=
  String.prefix needle hay ||
  match hay with
  | EmptyString => false
  | String _ rest => includes needle rest
  end.

(** *** [parseInt(s, 10)] *)

(** The white space and line terminators that [parseInt] skips, by the
    bytes of their encoding.  One byte: U+0009 to U+000D and U+0020. *)
Definition is_white_space (c : ascii) : bool :=
  let n := nat_of_ascii c in
  ((9 <=? n)%nat && (n <=? 13)%nat) || (n =? 32)%nat.

(** Two bytes: U+00A0. *)
Definition is_white_space2 (a b : ascii) : bool :=
  (nat_of_ascii a =? 194)%nat && (nat_of_ascii b =? 160)%nat.

(** Three bytes: U+1680, U+2000 to U+200A, U+2028, U+2029, U+202F, U+205F,
    U+3000 and U+FEFF. *)
Definition is_white_space3 (a b c : ascii) : bool :=
  let x := nat_of_ascii a in
  let y := nat_of_ascii b in
  let z := nat_of_ascii c in
  ((x =? 225)%nat && (y =? 154)%nat && (z =? 128)%nat) ||
  ((x =? 226)%nat && (y =? 128)%nat &&
     (((128 <=? z)%nat && (z <=? 138)%nat) ||
      (z =? 168)%nat || (z =? 169)%nat || (z =? 175)%nat)) ||
  ((x =? 226)%nat && (y =? 129)%nat && (z =? 159)%nat) ||
  ((x =? 227)%nat && (y =? 128)%nat && (z =? 128)%nat) ||
  ((x =? 239)%nat && (y =? 187)%nat && (z =? 191)%nat).

(** [s] without the white space that starts it. *)
Fixpoint trim_start (s : string) : string :=
  match s with
  | EmptyString => s
  | String a r1 =>
      if is_white_space a then trim_start r1
      else
        match r1 with
        | EmptyString => s
        | String b r2 =>
            if is_white_space2 a b then trim_start r2
            else
              match r2 with
              | EmptyString => s
              | String c r3 =>
                  if is_white_space3 a b c then trim_start r3 else s
              end
        end
  end.

Definition digit (c : ascii) : option Z :=
  let n := nat_of_ascii c in
  if (48 <=? n)%nat && (n <=? 57)%nat then Some (Z.of_nat n - 48)%Z else None.

(** The value of the longest prefix of decimal digits, [None] if empty. *)
Fixpoint digits (s : string) (acc : option Z) : option Z :=
  match s with
  | EmptyString => acc
  | String c rest =>
      match digit c with
      | Some d => digits rest (Some (10 * default 0%Z acc + d)%Z)
      | None => acc
      end
  end.

(** White space is skipped, then an optional sign, then the digits up to
    the first character that is not one. *)
Definition parseInt10 (s : string) : number :=
  let s := trim_start s in
  let '(neg, s) :=
    match s with
    | String "-"%char rest => (true, rest)
    | String "+"%char rest => (false, rest)
    | _ => (false, s)
    end in
  match digits s None with
  | None => NaN
  | Some 0%Z => S754_zero neg
  | Some z => of_Z (if neg then - z else z)
  end.

End JS.

Import JS.

(** ** URLs *)

Module Url.

(** A parsed URL.  [query] is the list of name-value pairs that
    [url.searchParams] exposes. *)
Record t : Type := mk {
  scheme : string;
  username : string;
  password : string;
  host : string;
  port : option nat;
  path : string;
  query : list (string * string);
  fragment : option string
}.

Definition with_query (q : list (string * string)) (u : t) : t :=
  {| scheme := scheme u; username := username u; password := password u;
     host := host u; port := port u; path := path u;
     query := q; fragment := fragment u |}.

Definition named (k : string) (p : string * string) : bool :=
  String.eqb (fst p) k.

(** [searchParams.getAll(k)] *)
Definition getAll (k : string) (q : list (string * string)) : list string :=
  map snd (List.filter (named k) q).

(** [searchParams.has(k)] *)
Definition has (k : string) (q : list (string * string)) : bool :=
  existsb (named k) q.

Definition without (k : string) (q : list (string * string))
  : list (string * string) :=
  List.filter (fun p => negb (named k p)) q.

(** [searchParams.set(k, v)]: the first pair named [k] takes the value [v]
    and the other pairs named [k] are removed; without such a pair,
    [(k, v)] is appended. *)
Fixpoint set (k v : string) (q : list (string * string))
  : list (string * string) :=
  match q with
  | [] => [(k, v)]
  | p :: rest =>
      if named k p then (k, v) :: without k rest else p :: set k v rest
  end.

(** [url.searchParams.set(k, v)] *)
Definition searchParams_set (k v : string) (u : t) : t :=
  with_query (set k v (query u)) u.

End Url.

(** ** The host *)

(** What the page and the browser provide to the component: the URL parser
    behind [new URL(s)] ([None] when it throws), the serializer behind
    [url.toString()], given by what it writes after the scheme and its
    colon, [window.location.hostname], the conversion of a string to a
    Number, and the value that the HTML parser reads for an attribute
    written [name="text"] in markup: [text] up to a quote, with its
    character references replaced. *)
Record Platform : Type := {
  url_parse : string -> option Url.t;
  url_after_scheme : Url.t -> string;
  location_hostname : string;
  StringToNumber : string -> number;
  html_attribute_value : string -> string
}.

(** [url.toString()]: the scheme, a colon, and the rest. *)
Definition url_href (P : Platform) (u : Url.t) : string :=
  Url.scheme u ++ ":" ++ url_after_scheme P u.

(** ** The element tree *)

Module Dom.

(** An element.  [nid] is the identity of the node object: a reference to a
    node, such as the ones a closure captures, is its [nid].  [height] is the
    number [n] of the last assignment [style.height = `${n}px`] (what the
    style engine makes of that text is not modelled).
    [load_listeners] holds the closures registered for the [load] event, each
    given by the node it captured ([None] for a captured [null]). *)
Record Elem : Type := {
  nid : nat;
  tag : string;
  id : option string;
  classes : list string;
  src : option string;
  height : option number;
  load_listeners : list (option nat)
}.

(** [Css n] stands for the text of the style sheet in which the minimum
    height is [n]. *)
#[warnings="-register-all"]
Inductive Node : Type :=
| El (e : Elem) (kids : list Node)
| Text (s : string)
| Css (minHeight : number).

Definition element (n : nat) (t : string) (i : option string) (cls : list string)
  : Elem :=
  {| nid := n; tag := t; id := i; classes := cls; src := None;
     height := None; load_listeners := [] |}.

Definition with_src (s : string) (e : Elem) : Elem :=
  {| nid := nid e; tag := tag e; id := id e; classes := classes e;
     src := Some s; height := height e; load_listeners := load_listeners e |}.

(** [e.style.height = `${n}px`] *)
Definition set_height (n : number) (e : Elem) : Elem :=
  {| nid := nid e; tag := tag e; id := id e; classes := classes e;
     src := src e; height := Some n; load_listeners := load_listeners e |}.

(** [e.classList.add(c)] *)
Definition classList_add (c : string) (e : Elem) : Elem :=
  {| nid := nid e; tag := tag e; id := id e;
     classes := if existsb (String.eqb c) (classes e) then classes e
                else classes e ++ [c];
     src := src e; height := height e; load_listeners := load_listeners e |}.

(** [e.addEventListener('load', closure)], the closure capturing [o]. *)
Definition add_load_listener (o : option nat) (e : Elem) : Elem :=
  {| nid := nid e; tag := tag e; id := id e; classes := classes e;
     src := src e; height := height e;
     load_listeners := load_listeners e ++ [o] |}.

(** The first element, in tree order, that satisfies [p]. *)
Fixpoint find (p : Elem -> bool) (n : Node) : option Elem :=
  match n with
  | El e kids =>
      if p e then Some e
      else (fix first (l : list Node) : option Elem :=
              match l with
              | [] => None
              | k :: rest =>
                  match find p k with
                  | Some x => Some x
                  | None => first rest
                  end
              end) kids
  | Text _ | Css _ => None
  end.

Fixpoint find_first (p : Elem -> bool) (l : list Node) : option Elem :=
  match l with
  | [] => None
  | k :: rest =>
      match find p k with
      | Some x => Some x
      | None => find_first p rest
      end
  end.

Definition has_id (i : string) (e : Elem) : bool :=
  match id e with
  | Some j => String.eqb j i
  | None => false
  end.

(** [root.getElementById(i)] on the children of a shadow root. *)
Definition getElementById (i : string) (root : list Node) : option Elem :=
  find_first (has_id i) root.

Definition is_node (r : nat) (e : Elem) : bool := (nid e =? r)%nat.

(** The node object [r], wherever it is in the forest. *)
Definition deref (r : nat) (forest : list Node) : option Elem :=
  find_first (is_node r) forest.

(** A write through the reference [r]. *)
Fixpoint update (r : nat) (f : Elem -> Elem) (n : Node) : Node :=
  match n with
  | El e kids => El (if is_node r e then f e else e) (List.map (update r f) kids)
  | Text s => Text s
  | Css m => Css m
  end.

Definition update_all (r : nat) (f : Elem -> Elem) (forest : list Node)
  : list Node :=
  List.map (update r f) forest.

End Dom.

(** ** The component *)

(** One instance of the element.  [iframeSuffix] is the random part of
    [iframeId], which the constructor makes of digits and lower-case
    letters.  [replaced] keeps the structures that an assignment to
    [shadowRoot.innerHTML] removed from the shadow root: closures created by
    an earlier [render] still refer to their nodes. *)
Record Widget : Type := {
  attributes : gmap string string;
  iframeSuffix : string;
  shadowRoot : list Dom.Node;
  replaced : list Dom.Node
}.

(** A pending [setTimeout] callback of [render]: the closure of instance
    [owner] that captured [overlay], the loading overlay. *)
Record Timer : Type := {
  delay : nat;
  owner : nat;
  overlay : option nat
}.

(** A [CustomEvent] as its listeners see it: its [type], its [detail] and
    whether it bubbles and crosses shadow roots. *)
Record CustomEvent : Type := {
  type : string;
  detail : value;
  bubbles : bool;
  composed : bool
}.

(** The [detail] of [new CustomEvent(type, { detail: v })]: a member of the
    init dictionary that is [undefined] counts as absent, and the default
    of [detail] is [null]. *)
Definition init_detail (v : value) : value :=
  match v with
  | VUndefined => VNull
  | _ => v
  end.

Record MessageEvent : Type := {
  origin : string;
  data : value
}.

(** What instances share: the counter that names new node objects, the
    [message] listeners of [window] (the [boundMessageHandler] of instance
    [k] is [k]), the pending timers and the events dispatched so far, each
    with the instance it was dispatched on. *)
Record Window : Type := {
  next_node : nat;
  message_listeners : list nat;
  timers : list Timer;
  dispatched : list (nat * CustomEvent)
}.

(** The state a method runs in: its instance and the window. *)
Record Ctx : Type := {
  this : Widget;
  env : Window
}.

(** Methods are state transformers that return or throw. *)
Definition M (A : Type) : Type := Ctx -> completion A * Ctx.

Definition ret {A : Type} (a : A) : M A := fun c => (Normal a, c).

Definition throw {A : Type} (e : error) : M A := fun c => (Throw e, c).

Definition bind {A B : Type} (m : M A) (k : A -> M B) : M B :=
  fun c =>
    match m c with
    | (Normal a, c') => k a c'
    | (Throw e, c') => (Throw e, c')
    end.

Declare Scope method_scope.
Delimit Scope method_scope with method.
Bind Scope method_scope with M.

Notation "x <- m ;; k" := (bind m (fun x => k))
  (at level 100, m at next level, right associativity) : method_scope.
Notation "m ;; k" := (bind m (fun _ => k))
  (at level 100, right associativity) : method_scope.

Definition when (b : bool) (m : M unit) : M unit :=
  if b then m else ret tt.

Definition lift {A : Type} (r : completion A) : M A :=
  fun c => (r, c).

Definition modify (f : Ctx -> Ctx) : M unit := fun c => (Normal tt, f c).

Definition set_this (f : Widget -> Widget) (c : Ctx) : Ctx :=
  {| this := f (this c); env := env c |}.

Definition set_env (f : Window -> Window) (c : Ctx) : Ctx :=
  {| this := this c; env := f (env c) |}.

Section CalendlyWidget.

Variable P : Platform.

Definition observedAttributes : list string :=
  ["url"; "height"; "hide-details"; "hide-gdpr";
   "background-color"; "text-color"; "primary-color"].

(** [this.getAttribute(name)], [None] for [null]. *)
Definition getAttribute (w : Widget) (name : string) : option string :=
  attributes w !! name.

(** [this.iframeId], set once by the constructor. *)
Definition iframeId (w : Widget) : string :=
  "calendly-iframe-" ++ iframeSuffix w.

(** [a === 'true'] *)
Definition is_true (a : option string) : bool :=
  match a with
  | Some s => String.eqb s "true"
  | None => false
  end.

(** The value of an attribute that passes [if (a)]: present and not empty. *)
Definition given (a : option string) : option string :=
  match a with
  | Some s => if String.eqb s "" then None else Some s
  | None => None
  end.

(** [if (this.getAttribute(attr) === 'true') url.searchParams.set(param, '1')] *)
Definition set_flag (w : Widget) (attr param : string) (url : Url.t) : Url.t :=
  if is_true (getAttribute w attr) then Url.searchParams_set param "1" url
  else url.

(** [if (this.getAttribute(attr))
       url.searchParams.set(param, this.getAttribute(attr))] *)
Definition set_given (w : Widget) (attr param : string) (url : Url.t) : Url.t :=
  match given (getAttribute w attr) with
  | Some v => Url.searchParams_set param v url
  | None => url
  end.

(** The [url] object of the [calendlyUrl] getter when it reaches its last
    line: [Normal None] when the getter returns [''] early, [Throw] when
    [new URL(baseUrl)] throws. *)
Definition calendlyUrl_url (w : Widget) : completion (option Url.t) :=
  let baseUrl := default "" (getAttribute w "url") in
  if String.eqb baseUrl "" then Normal None
  else
    match url_parse P baseUrl with
    | None => Throw (TypeError "Invalid URL")
    | Some url =>
        let url := set_flag w "hide-details" "hide_event_type_details" url in
        let url := set_flag w "hide-gdpr" "hide_gdpr_banner" url in
        let url := set_given w "background-color" "background_color" url in
        let url := set_given w "text-color" "text_color" url in
        let url := set_given w "primary-color" "primary_color" url in
        let url := Url.searchParams_set "embed_domain" (location_hostname P) url in
        let url := Url.searchParams_set "embed_type" "Inline" url in
        Normal (Some url)
    end.

(** [get calendlyUrl()] *)
Definition calendlyUrl (w : Widget) : completion string :=
  match calendlyUrl_url w with
  | Normal None => Normal ""
  | Normal (Some url) => Normal (url_href P url)
  | Throw e => Throw e
  end.

(** [get minHeight()] *)
Definition minHeight (w : Widget) : number :=
  parseInt10 (default "700" (given (getAttribute w "height"))).

(** The structure of the first template of [render], its node objects named
    from [n] on. *)
Definition error_view (minH : number) (n : nat) : list Dom.Node :=
  [ Dom.El (Dom.element n "style" None []) [Dom.Css minH];
    Dom.El (Dom.element (n + 1) "div" None ["calendly-container"])
      [ Dom.El (Dom.element (n + 2) "div" None ["error-message"])
          [ Dom.El (Dom.element (n + 3) "p" None [])
              [Dom.Text "Calendly URL not configured."];
            Dom.El (Dom.element (n + 4) "p" None [])
              [ Dom.Text "Add the ";
                Dom.El (Dom.element (n + 5) "code" None []) [Dom.Text "url"];
                Dom.Text " attribute to the widget." ] ] ] ].

(** The structure of the second template of [render], given the value
    [url] of the [src] attribute.  What a quote in the text of the URL
    would add to the markup after the frame's [src] is not part of it. *)
Definition frame_view (minH : number) (frameId url : string) (n : nat)
  : list Dom.Node :=
  [ Dom.El (Dom.element n "style" None []) [Dom.Css minH];
    Dom.El (Dom.element (n + 1) "div" (Some "container") ["calendly-container"])
      [ Dom.El (Dom.element (n + 2) "div" (Some "loading") ["loading-overlay"])
          [ Dom.El (Dom.element (n + 3) "div" None ["spinner"]) [] ];
        Dom.El (Dom.with_src url
                  (Dom.element (n + 4) "iframe" (Some frameId) ["calendly-iframe"]))
          [] ] ].

(** [this.shadowRoot.innerHTML = ...]: [count] new node objects replace the
    children of the shadow root. *)
Definition set_innerHTML (view : nat -> list Dom.Node) (count : nat) : M unit :=
  modify (fun c =>
    {| this := {| attributes := attributes (this c);
                  iframeSuffix := iframeSuffix (this c);
                  shadowRoot := view (next_node (env c));
                  replaced := shadowRoot (this c) ++ replaced (this c) |};
       env := {| next_node := next_node (env c) + count;
                 message_listeners := message_listeners (env c);
                 timers := timers (env c);
                 dispatched := dispatched (env c) |} |}).

(** A write to the node object [r] of this instance. *)
Definition write (r : nat) (f : Dom.Elem -> Dom.Elem) : M unit :=
  modify (set_this (fun w =>
    {| attributes := attributes w;
       iframeSuffix := iframeSuffix w;
       shadowRoot := Dom.update_all r f (shadowRoot w);
       replaced := Dom.update_all r f (replaced w) |})).

(** [render()].  The [load] listener added to the frame is the closure that
    captured [loading]. *)
Definition render : M unit :=
  fun c =>
    (url <- lift (calendlyUrl (this c));;
     if String.eqb url "" then
       set_innerHTML (error_view (minHeight (this c))) 6
     else
       set_innerHTML
         (frame_view (minHeight (this c)) (iframeId (this c))
            (html_attribute_value P url)) 5;;
       (fun c' =>
          let iframe := Dom.getElementById (iframeId (this c')) (shadowRoot (this c')) in
          let loading := Dom.getElementById "loading" (shadowRoot (this c')) in
          match iframe with
          | Some i =>
              write (Dom.nid i) (Dom.add_load_listener (Dom.nid <$> loading)) c'
          | None => throw (TypeError "Cannot read properties of null") c'
          end))%method c.

(** [updateHeight(height)] *)
Definition updateHeight (height : value) : M unit :=
  if negb (ToBoolean height) then ret tt
  else
    fun c =>
      let container := Dom.getElementById "container" (shadowRoot (this c)) in
      let iframe := Dom.getElementById (iframeId (this c)) (shadowRoot (this c)) in
      match container, iframe with
      | Some container, Some iframe =>
          (h <- lift (ToNumber (StringToNumber P) height);;
           let newHeight := Math_max h (minHeight (this c)) in
           write (Dom.nid container) (Dom.set_height newHeight);;
           write (Dom.nid iframe) (Dom.set_height newHeight))%method c
      | _, _ => ret tt c
      end.

(** [this.dispatchEvent(new CustomEvent(name, { detail, bubbles: true,
    composed: true }))] on instance [self]. *)
Definition dispatchEvent (self : nat) (name : string) (payload : value) : M unit :=
  modify (set_env (fun e =>
    {| next_node := next_node e;
       message_listeners := message_listeners e;
       timers := timers e;
       dispatched := dispatched e ++
         [(self, {| type := name; detail := init_detail payload;
                    bubbles := true; composed := true |})] |})).

(** [handleMessage(event)] of instance [self]. *)
Definition handleMessage (self : nat) (event : MessageEvent) : M unit :=
  if negb (includes "calendly.com" (origin event)) then ret tt
  else
    let data := data event in
    if negb (ToBoolean data) || negb (ToBoolean (get data "event")) then ret tt
    else
      (when (is_str (get data "event") "calendly.page_height")
         (updateHeight (get_opt (get data "payload") "height"));;
       when (is_str (get data "event") "calendly.event_scheduled")
         (dispatchEvent self "scheduled" (get data "payload"));;
       when (is_str (get data "event") "calendly.date_and_time_selected")
         (dispatchEvent self "datetime-selected" (get data "payload"));;
       when (is_str (get data "event") "calendly.event_type_viewed")
         (dispatchEvent self "viewed" (get data "payload")))%method.

(** [window.addEventListener('message', this.boundMessageHandler)]: a
    listener that is already registered is not added again. *)
Definition addEventListener (self : nat) : M unit :=
  modify (set_env (fun e =>
    {| next_node := next_node e;
       message_listeners :=
         if existsb (Nat.eqb self) (message_listeners e)
         then message_listeners e
         else message_listeners e ++ [self];
       timers := timers e;
       dispatched := dispatched e |})).

(** [window.removeEventListener('message', this.boundMessageHandler)] *)
Definition removeEventListener (self : nat) : M unit :=
  modify (set_env (fun e =>
    {| next_node := next_node e;
       message_listeners :=
         List.filter (fun k => negb (Nat.eqb self k)) (message_listeners e);
       timers := timers e;
       dispatched := dispatched e |})).

(** [connectedCallback()] *)
Definition connectedCallback (self : nat) : M unit :=
  (render;; addEventListener self)%method.

(** [disconnectedCallback()] *)
Definition disconnectedCallback (self : nat) : M unit :=
  removeEventListener self.

(** [this.shadowRoot.innerHTML] is not the empty string. *)
Definition has_innerHTML (w : Widget) : bool :=
  match shadowRoot w with
  | [] => false
  | _ :: _ => true
  end.

(** [attributeChangedCallback(name, oldValue, newValue)] *)
Definition attributeChangedCallback (name : string) (oldValue newValue : option string)
  : M unit :=
  fun c =>
    if negb (bool_decide (oldValue = newValue)) && has_innerHTML (this c)
    then render c
    else ret tt c.

(** The callback of the settle delay: [loading.classList.add('hidden')]. *)
Definition settle (loading : option nat) : M unit :=
  match loading with
  | Some r => write r (Dom.classList_add "hidden")
  | None => throw (TypeError "Cannot read properties of null")
  end.

(** [setTimeout(callback, 500)], the callback being the closure of
    instance [self] over [loading]. *)
Definition setTimeout (self : nat) (loading : option nat) : M unit :=
  modify (set_env (fun e =>
    {| next_node := next_node e;
       message_listeners := message_listeners e;
       timers := timers e ++ [{| delay := 500; owner := self; overlay := loading |}];
       dispatched := dispatched e |})).

Fixpoint for_each {A : Type} (f : A -> M unit) (l : list A) : M unit :=
  match l with
  | [] => ret tt
  | a :: rest => (f a;; for_each f rest)%method
  end.

(** The frame [r] in the shadow root of instance [self] has loaded: its
    [load] listeners run. *)
Definition frame_loaded (self r : nat) : M unit :=
  fun c =>
    match Dom.deref r (shadowRoot (this c)) with
    | Some e => for_each (setTimeout self) (Dom.load_listeners e) c
    | None => ret tt c
    end.

(** ** The page *)

(** The instances of the element on a page, what they share, and the
    exceptions that left a callback and were reported to the page. *)
Record World : Type := {
  instances : gmap nat Widget;
  global : Window;
  uncaught : list error
}.

Definition empty_world : World :=
  {| instances := ∅;
     global := {| next_node := 0; message_listeners := []; timers := [];
                  dispatched := [] |};
     uncaught := [] |}.

(** The host runs the callback [m] of instance [i] to completion. *)
Definition call (i : nat) (m : M unit) (w : World) : World :=
  match instances w !! i with
  | None => w
  | Some wd =>
      let '(r, c) := m {| this := wd; env := global w |} in
      {| instances := <[i := this c]> (instances w);
         global := env c;
         uncaught := match r with
                     | Normal _ => uncaught w
                     | Throw e => uncaught w ++ [e]
                     end |}
  end.

(** A [message] event on [window]: every registered handler runs. *)
Definition deliver (event : MessageEvent) (w : World) : World :=
  fold_left (fun w k => call k (handleMessage k event) w)
    (message_listeners (global w)) w.

Definition with_attributes (f : gmap string string -> gmap string string)
  (i : nat) (w : World) : World :=
  {| instances :=
       alter (fun wd => {| attributes := f (attributes wd);
                           iframeSuffix := iframeSuffix wd;
                           shadowRoot := shadowRoot wd;
                           replaced := replaced wd |}) i (instances w);
     global := global w;
     uncaught := uncaught w |}.

Definition observed (name : string) : bool :=
  existsb (String.eqb name) observedAttributes.

(** An attribute of instance [i] changes from [old] to [new]. *)
Definition change_attribute (i : nat) (name : string) (new : option string)
  (w : World) : World :=
  match instances w !! i with
  | None => w
  | Some wd =>
      let old := attributes wd !! name in
      let w' := with_attributes
                  (match new with
                   | Some v => <[name := v]>
                   | None => delete name
                   end) i w in
      if observed name
      then call i (attributeChangedCallback name old new) w'
      else w'
  end.

Definition remove_timer (k : nat) (w : World) : World :=
  {| instances := instances w;
     global := {| next_node := next_node (global w);
                  message_listeners := message_listeners (global w);
                  timers := delete k (timers (global w));
                  dispatched := dispatched (global w) |};
     uncaught := uncaught w |}.

(** What the host does to the page, one task at a time. *)
Inductive Task : Type :=
| Create (i : nat) (suffix : string) (attrs : gmap string string)
| Connect (i : nat)
| Disconnect (i : nat)
| SetAttribute (i : nat) (name value : string)
| RemoveAttribute (i : nat) (name : string)
| PostMessage (event : MessageEvent)
| FrameLoaded (i r : nat)
| TimerFires (k : nat).

Definition step (w : World) (t : Task) : World :=
  match t with
  | Create i suffix attrs =>
      match instances w !! i with
      | Some _ => w
      | None =>
          {| instances := <[i := {| attributes := attrs; iframeSuffix := suffix;
                                    shadowRoot := []; replaced := [] |}]>
                            (instances w);
             global := global w;
             uncaught := uncaught w |}
      end
  | Connect i => call i (connectedCallback i) w
  | Disconnect i => call i (disconnectedCallback i) w
  | SetAttribute i name value => change_attribute i name (Some value) w
  | RemoveAttribute i name => change_attribute i name None w
  | PostMessage event => deliver event w
  | FrameLoaded i r => call i (frame_loaded i r) w
  | TimerFires k =>
      match timers (global w) !! k with
      | Some t => call (owner t) (settle (overlay t)) (remove_timer k w)
      | None => w
      end
  end.

Definition run (tasks : list Task) (w : World) : World :=
  fold_left step tasks w.

End CalendlyWidget.

(** ** A reference host

    A host on which the model runs on concrete inputs.  Its URL parser
    covers the URLs of the form [scheme://host/path?query#fragment] whose
    scheme, host, path and fragment need no percent-encoding; user
    information and port stay in [host].  The query is read and written as
    [application/x-www-form-urlencoded]. *)

Module Reference.

(** [s] up to the first [c], and what follows it. *)
Fixpoint split_at (c : ascii) (s : string) : string * option string :=
  match s with
  | EmptyString => (EmptyString, None)
  | String a rest =>
      if Ascii.eqb a c then (EmptyString, Some rest)
      else let '(h, t) := split_at c rest in (String a h, t)
  end.

(** The pieces of [s] between occurrences of [c]; [fuel] bounds their
    number and [String.length s + 1] is enough. *)
Fixpoint pieces (fuel : nat) (c : ascii) (s : string) : list string :=
  match fuel with
  | O => []
  | S fuel' =>
      match split_at c s with
      | (h, Some t) => h :: pieces fuel' c t
      | (h, None) => [h]
      end
  end.

Definition hex_value (c : ascii) : option nat :=
  let n := nat_of_ascii c in
  if (48 <=? n)%nat && (n <=? 57)%nat then Some (n - 48)
  else if (65 <=? n)%nat && (n <=? 70)%nat then Some (n - 55)
  else if (97 <=? n)%nat && (n <=? 102)%nat then Some (n - 87)
  else None.

(** [%XY] becomes the byte it stands for; a [%] that is not followed by two
    hexadecimal digits stays. *)
Fixpoint percent_decode (s : string) : string :=
  match s with
  | EmptyString => EmptyString
  | String c r1 =>
      let keep := String c (percent_decode r1) in
      if Ascii.eqb c "%"%char then
        match r1 with
        | String a (String b rest) =>
            match hex_value a, hex_value b with
            | Some x, Some y =>
                String (ascii_of_nat (16 * x + y)) (percent_decode rest)
            | _, _ => keep
            end
        | _ => keep
        end
      else keep
  end.

Fixpoint plus_to_space (s : string) : string :=
  match s with
  | EmptyString => EmptyString
  | String c rest =>
      String (if Ascii.eqb c "+"%char then " "%char else c) (plus_to_space rest)
  end.

Definition form_decode (s : string) : string :=
  percent_decode (plus_to_space s).

Definition pair_of (s : string) : string * string :=
  let '(k, v) := split_at "="%char s in
  (form_decode k, form_decode (default "" v)).

Definition parse_query (s : string) : list (string * string) :=
  List.map pair_of
    (List.filter (fun x => negb (String.eqb x ""))
       (pieces (S (String.length s)) "&"%char s)).

Definition has_char (c : ascii) (s : string) : bool :=
  match split_at c s with
  | (_, Some _) => true
  | (_, None) => false
  end.

Definition parse (s : string) : option Url.t :=
  let '(s, frag) := split_at "#"%char s in
  let '(s, q) := split_at "?"%char s in
  match split_at ":"%char s with
  | (sch, Some (String "/"%char (String "/"%char rest))) =>
      let '(h, p) := split_at "/"%char rest in
      if String.eqb sch "" || String.eqb h "" || has_char " "%char s then None
      else Some {| Url.scheme := sch; Url.username := ""; Url.password := "";
                   Url.host := h; Url.port := None;
                   Url.path := String "/"%char (default "" p);
                   Url.query := parse_query (default "" q);
                   Url.fragment := frag |}
  | _ => None
  end.

Definition hex_digit (n : nat) : ascii :=
  ascii_of_nat (if (n <? 10)%nat then 48 + n else 55 + n).

(** Letters, digits and [*-._] stay, a space becomes [+], any other byte
    becomes [%XY]. *)
Definition form_encode_char (c : ascii) : string :=
  let n := nat_of_ascii c in
  if ((48 <=? n)%nat && (n <=? 57)%nat) || ((65 <=? n)%nat && (n <=? 90)%nat) ||
     ((97 <=? n)%nat && (n <=? 122)%nat) || (n =? 42)%nat || (n =? 45)%nat ||
     (n =? 46)%nat || (n =? 95)%nat
  then String c EmptyString
  else if (n =? 32)%nat then "+"
  else String "%"%char
         (String (hex_digit (n / 16)) (String (hex_digit (n mod 16)) EmptyString)).

Fixpoint form_encode (s : string) : string :=
  match s with
  | EmptyString => EmptyString
  | String c rest => form_encode_char c ++ form_encode rest
  end.

Fixpoint join_query (q : list (string * string)) : string :=
  match q with
  | [] => ""
  | [(k, v)] => form_encode k ++ "=" ++ form_encode v
  | (k, v) :: rest => form_encode k ++ "=" ++ form_encode v ++ "&" ++ join_query rest
  end.

Definition after_scheme (u : Url.t) : string :=
  "//" ++ Url.host u ++ Url.path u ++
  match Url.query u with
  | [] => ""
  | q => "?" ++ join_query q
  end ++
  match Url.fragment u with
  | None => ""
  | Some f => "#" ++ f
  end.

(** Strings of decimal digits convert to their value, the empty string to
    [+0], anything else to [NaN]. *)
Fixpoint all_digits (s : string) : bool :=
  match s with
  | EmptyString => true
  | String c rest =>
      match digit c with
      | Some _ => all_digits rest
      | None => false
      end
  end.

Definition to_number (s : string) : number :=
  if all_digits s then
    match digits s None with
    | Some z => of_Z z
    | None => S754_zero false
    end
  else NaN.

(** The text of an attribute up to the quote that ends its value.  No
    character reference is replaced: this covers the texts in which no
    ampersand starts one. *)
Definition attribute_text (s : string) : string :=
  fst (split_at (ascii_of_nat 34) s).

Definition host : Platform :=
  {| url_parse := parse;
     url_after_scheme := after_scheme;
     location_hostname := "www.example.com";
     StringToNumber := to_number;
     html_attribute_value := attribute_text |}.

End Reference.

(** * Vocabulary of the statements *)

(** ** The parameters that [calendlyUrl] sets *)

(** The attributes compared with ['true'], each with its parameter. *)
Definition flag_parameters : list (string * string) :=
  [("hide-details", "hide_event_type_details"); ("hide-gdpr", "hide_gdpr_banner")].

(** The attributes whose value is passed on, each with its parameter. *)
Definition value_parameters : list (string * string) :=
  [("background-color", "background_color"); ("text-color", "text_color");
   ("primary-color", "primary_color")].

(** The names of all the parameters that [calendlyUrl] may set. *)
Definition set_parameters : list string :=
  ["hide_event_type_details"; "hide_gdpr_banner"; "background_color";
   "text_color"; "primary_color"; "embed_domain"; "embed_type"].

Definition listed (p : string * string) : bool :=
  existsb (String.eqb (fst p)) set_parameters.

(** [u'] has every component of [u], the query apart. *)
Definition same_components (u u' : Url.t) : Prop :=
  Url.scheme u' = Url.scheme u /\ Url.username u' = Url.username u /\
  Url.password u' = Url.password u /\ Url.host u' = Url.host u /\
  Url.port u' = Url.port u /\ Url.path u' = Url.path u /\
  Url.fragment u' = Url.fragment u.

(** ** Trees and writes *)

(** Induction on a tree, with the property available for the children. *)
Fixpoint Node_forall_ind (Q : Dom.Node -> Prop)
    (HEl : forall e kids, Forall Q kids -> Q (Dom.El e kids))
    (HText : forall s, Q (Dom.Text s))
    (HCss : forall m, Q (Dom.Css m))
    (n : Dom.Node) {struct n} : Q n :=
  match n with
  | Dom.El e kids =>
      HEl e kids
        ((fix all (l : list Dom.Node) : Forall Q l :=
            match l with
            | [] => @List.Forall_nil Dom.Node Q
            | k :: rest =>
                @List.Forall_cons Dom.Node Q k rest
                  (Node_forall_ind Q HEl HText HCss k) (all rest)
            end) kids)
  | Dom.Text s => HText s
  | Dom.Css m => HCss m
  end.

(** What a write through [r] does to an element. *)
Definition touched (r : nat) (f : Dom.Elem -> Dom.Elem) (e : Dom.Elem) : Dom.Elem :=
  if Dom.is_node r e then f e else e.

(** The state after the two assignments of [updateHeight]. *)
Definition heights_written (container iframe : Dom.Elem) (n : number) (c : Ctx)
  : Ctx :=
  set_this (fun w =>
    {| attributes := attributes w;
       iframeSuffix := iframeSuffix w;
       shadowRoot :=
         Dom.update_all (Dom.nid iframe) (Dom.set_height n)
           (Dom.update_all (Dom.nid container) (Dom.set_height n) (shadowRoot w));
       replaced :=
         Dom.update_all (Dom.nid iframe) (Dom.set_height n)
           (Dom.update_all (Dom.nid container) (Dom.set_height n) (replaced w)) |}) c.

(** ** Messages and events *)

(** The inbound event names that [handleMessage] acts on. *)
Definition recognized_events : list string :=
  ["calendly.page_height"; "calendly.event_scheduled";
   "calendly.date_and_time_selected"; "calendly.event_type_viewed"].

(** The inbound event names that are forwarded, each with the type of the
    outbound event. *)
Definition forwarded_events : list (string * string) :=
  [("calendly.event_scheduled", "scheduled");
   ("calendly.date_and_time_selected", "datetime-selected");
   ("calendly.event_type_viewed", "viewed")].

(** [c] with one more dispatched event. *)
Definition dispatched_one (self : nat) (ev : CustomEvent) (c : Ctx) : Ctx :=
  {| this := this c;
     env := {| next_node := next_node (env c);
               message_listeners := message_listeners (env c);
               timers := timers (env c);
               dispatched := dispatched (env c) ++ [(self, ev)] |} |}.

(** From [c] to [c'], the window changed only by events dispatched on
    [self], added at the end. *)
Definition appends_on (self : nat) (c c' : Ctx) : Prop :=
  next_node (env c') = next_node (env c) /\
  message_listeners (env c') = message_listeners (env c) /\
  timers (env c') = timers (env c) /\
  exists evs,
    dispatched (env c') = (dispatched (env c) ++ evs)%list /\
    Forall (fun x => fst x = self) evs.

(** A method that, from any state, changes the window in that way only. *)
Definition quiet {A : Type} (self : nat) (m : M A) : Prop :=
  forall c, appends_on self c (snd (m c)).

Definition on (i : nat) (x : nat * CustomEvent) : bool := Nat.eqb (fst x) i.

(** The events dispatched so far on instance [i]. *)
Definition events_on (i : nat) (w : World) : list (nat * CustomEvent) :=
  List.filter (on i) (dispatched (global w)).

(** ** The component on a page of the reference host *)

Definition sample_base : string := "https://calendly.com/acme/intro?month=2024-01".

(** What the reference parser makes of [sample_base]. *)
Definition sample_url : Url.t :=
  {| Url.scheme := "https"; Url.username := ""; Url.password := "";
     Url.host := "calendly.com"; Url.port := None; Url.path := "/acme/intro";
     Url.query := [("month", "2024-01")]; Url.fragment := None |}.

Definition sample_attributes : gmap string string :=
  <["url" := sample_base]>
    (<["primary-color" := "FF8122"]> (<["hide-gdpr" := "true"]> ∅)).

(** An instance as its constructor leaves it. *)
Definition new_widget (suffix : string) (attrs : gmap string string) : Widget :=
  {| attributes := attrs; iframeSuffix := suffix; shadowRoot := []; replaced := [] |}.

Definition sample_widget : Widget := new_widget "k3x9" sample_attributes.

(** A page on which one instance, numbered 1, has been mounted. *)
Definition mounted (attrs : gmap string string) : World :=
  run Reference.host [Create 1 "k3x9" attrs; Connect 1] empty_world.

(** The state in which the callbacks of that instance run. *)
Definition mounted_ctx (attrs : gmap string string) : Ctx :=
  snd (connectedCallback Reference.host 1
         {| this := new_widget "k3x9" attrs; env := global empty_world |}).

(** A height report sent from the origin [from]. *)
Definition page_height (from : string) (h : Z) : MessageEvent :=
  {| origin := from;
     data := VObj [("event", VStr "calendly.page_height");
                   ("payload", VObj [("height", VNum (of_Z h))])] |}.

Definition scheduled_message : MessageEvent :=
  {| origin := "https://calendly.com";
     data := VObj [("event", VStr "calendly.event_scheduled");
                   ("payload", VObj [("foo", VNum (of_Z 1))])] |}.

(** The height last written to the element [i] of instance 1. *)
Definition height_of (i : string) (w : World) : option (option number) :=
  match instances w !! 1 with
  | Some wd => Dom.height <$> Dom.getElementById i (shadowRoot wd)
  | None => None
  end.

(** The class list of the node [r] held by instance 1. *)
Definition classes_of (r : nat) (w : World) : option (list string) :=
  match instances w !! 1 with
  | Some wd => Dom.classes <$> Dom.deref r (shadowRoot wd ++ replaced wd)
  | None => None
  end.

(** The class list of the element [i] in the shadow root of instance 1. *)
Definition classes_of_id (i : string) (w : World) : option (list string) :=
  match instances w !! 1 with
  | Some wd => Dom.classes <$> Dom.getElementById i (shadowRoot wd)
  | None => None
  end.

(** ** Numerals *)

(** [s] without the sign that may start it. *)
Definition unsigned (s : string) : string :=
  match s with
  | String "-"%char rest | String "+"%char rest => rest
  | _ => s
  end.

(** The value of the character at which [parseInt] expects the first digit
    of [s]: after the leading white space and the sign. *)
Definition first_digit (s : string) : option Z :=
  match unsigned (trim_start s) with
  | EmptyString => None
  | String c _ => digit c
  end.

(** ** Structures *)

(** An [iframe] element. *)
Definition is_frame (e : Dom.Elem) : bool := String.eqb (Dom.tag e) "iframe".

(** ** Configurations *)

(** The configuration of instance [j] on a page: its attributes and the
    random part of its frame id. *)
Definition config_of (j : nat) (w : World) : option (gmap string string * string) :=
  (fun wd => (attributes wd, iframeSuffix wd)) <$> instances w !! j.

(** A method that changes neither the attributes nor the frame id of its
    instance. *)
Definition keeps_config {A : Type} (m : M A) : Prop :=
  forall c,
    attributes (this (snd (m c))) = attributes (this c) /\
    iframeSuffix (this (snd (m c))) = iframeSuffix (this c).

Ltac decide_nodes :=
  repeat match goal with
         | |- context [Nat.eqb ?a ?b] =>
             destruct (Nat.eqb_spec a b); try lia; cbn
         end.

Ltac in_list := simpl; repeat (first [left; reflexivity | right]).

(** * Properties *)

(** ** Running the model on the reference host *)

Example parse_reference :
  Reference.parse "https://calendly.com/acme/intro?month=2024-01&a=b#top"
  = Some {| Url.scheme := "https"; Url.username := ""; Url.password := "";
            Url.host := "calendly.com"; Url.port := None;
            Url.path := "/acme/intro";
            Url.query := [("month", "2024-01"); ("a", "b")];
            Url.fragment := Some "top" |}.
Proof. reflexivity. Qed.

Example parse_reference_invalid : Reference.parse "not a url" = None.
Proof. reflexivity. Qed.

(** White space of more than one byte is skipped as well: here U+00A0 and
    U+FEFF before the digits. *)
Example parseInt10_skips_white_space :
  parseInt10 (String (ascii_of_nat 194) (String (ascii_of_nat 160) "42"))
  = of_Z 42 /\
  parseInt10
    (String (ascii_of_nat 239) (String (ascii_of_nat 187)
       (String (ascii_of_nat 191) " 7px")))
  = of_Z 7 /\
  first_digit (String (ascii_of_nat 194) (String (ascii_of_nat 160) "42"))
  = Some 4%Z.
Proof. repeat split; reflexivity. Qed.

Example parseInt10_examples :
  parseInt10 "700" = of_Z 700 /\ parseInt10 "  42px" = of_Z 42 /\
  parseInt10 "-0" = S754_zero true /\ parseInt10 "tall" = NaN.
Proof. repeat split; reflexivity. Qed.

(** ** Search parameters *)

Section SearchParams.

Implicit Types (k v : string) (q : list (string * string)).

Lemma named_true k p : Url.named k p = true <-> fst p = k.
Proof. unfold Url.named. apply String.eqb_eq. Qed.

Lemma named_false k p : Url.named k p = false <-> fst p <> k.
Proof. unfold Url.named. apply String.eqb_neq. Qed.

Lemma named_other k k' p :
  k <> k' -> Url.named k p = true -> Url.named k' p = false.
Proof.
  intros Hne Hk. apply named_true in Hk. apply named_false. congruence.
Qed.

(** Dropping the pairs named [k] is invisible to a filter that rejects them. *)
Lemma filter_without (keep : string * string -> bool) k q :
  (forall p, Url.named k p = true -> keep p = false) ->
  List.filter keep (Url.without k q) = List.filter keep q.
Proof.
  intros Hkeep. unfold Url.without.
  induction q as [|p q IH]; simpl; [reflexivity|].
  destruct (Url.named k p) eqn:Hp; simpl.
  - rewrite (Hkeep p Hp). exact IH.
  - destruct (keep p); [f_equal|]; exact IH.
Qed.

Lemma filter_set (keep : string * string -> bool) k v q :
  (forall p, Url.named k p = true -> keep p = false) ->
  List.filter keep (Url.set k v q) = List.filter keep q.
Proof.
  intros Hkeep.
  assert (Hkv : keep (k, v) = false)
    by (apply Hkeep, named_true; reflexivity).
  induction q as [|p q IH]; simpl.
  - rewrite Hkv. reflexivity.
  - destruct (Url.named k p) eqn:Hp; simpl.
    + rewrite Hkv, (Hkeep p Hp). apply filter_without, Hkeep.
    + destruct (keep p); [f_equal|]; exact IH.
Qed.

Lemma getAll_without k q : Url.getAll k (Url.without k q) = [].
Proof.
  unfold Url.getAll, Url.without.
  induction q as [|p q IH]; simpl; [reflexivity|].
  destruct (Url.named k p) eqn:Hp; simpl; [exact IH|].
  rewrite Hp. exact IH.
Qed.

(** After [set], the parameter occurs once, with the value set. *)
Lemma getAll_set k v q : Url.getAll k (Url.set k v q) = [v].
Proof.
  assert (Hkv : Url.named k (k, v) = true) by (apply named_true; reflexivity).
  induction q as [|p q IH]; unfold Url.getAll in *; simpl.
  - rewrite Hkv. reflexivity.
  - destruct (Url.named k p) eqn:Hp; simpl.
    + rewrite Hkv. simpl. f_equal. apply getAll_without.
    + rewrite Hp. exact IH.
Qed.

(** [set] leaves the parameters of any other name as they were. *)
Lemma getAll_set_other k k' v q :
  k <> k' -> Url.getAll k' (Url.set k v q) = Url.getAll k' q.
Proof.
  intros Hne. unfold Url.getAll. f_equal.
  apply filter_set. intros p Hp. exact (named_other k k' p Hne Hp).
Qed.

Lemma has_getAll k q : Url.has k q = true <-> Url.getAll k q <> [].
Proof.
  unfold Url.has, Url.getAll.
  induction q as [|p q IH]; simpl; [split; [discriminate|congruence]|].
  destruct (Url.named k p); simpl; [split; [discriminate|reflexivity]|exact IH].
Qed.

End SearchParams.

(** ** The resolved URL *)

Section Resolution.

Variable P : Platform.
Variable w : Widget.

Lemma getAll_searchParams_set p v k u :
  Url.getAll k (Url.query (Url.searchParams_set p v u))
  = if String.eqb p k then [v] else Url.getAll k (Url.query u).
Proof.
  unfold Url.searchParams_set. simpl.
  destruct (String.eqb_spec p k) as [->|Hne].
  - apply getAll_set.
  - apply getAll_set_other, Hne.
Qed.

Lemma getAll_set_flag a p k u :
  Url.getAll k (Url.query (set_flag w a p u))
  = if is_true (getAttribute w a) && String.eqb p k then ["1"]
    else Url.getAll k (Url.query u).
Proof.
  unfold set_flag. destruct (is_true (getAttribute w a)); simpl; [|reflexivity].
  apply getAll_searchParams_set.
Qed.

Lemma getAll_set_given a p k u :
  Url.getAll k (Url.query (set_given w a p u))
  = match given (getAttribute w a) with
    | Some v => if String.eqb p k then [v] else Url.getAll k (Url.query u)
    | None => Url.getAll k (Url.query u)
    end.
Proof.
  unfold set_given. destruct (given (getAttribute w a)); [|reflexivity].
  apply getAll_searchParams_set.
Qed.

Lemma unlisted_searchParams_set p v u :
  In p set_parameters ->
  List.filter (fun x => negb (listed x)) (Url.query (Url.searchParams_set p v u))
  = List.filter (fun x => negb (listed x)) (Url.query u).
Proof.
  intros Hin. unfold Url.searchParams_set. simpl.
  apply filter_set. intros x Hx. apply named_true in Hx.
  unfold listed. rewrite Hx.
  apply negb_false_iff, existsb_exists. exists p. split; [exact Hin|].
  apply String.eqb_refl.
Qed.

Lemma same_components_refl u : same_components u u.
Proof. repeat split. Qed.

Lemma same_components_set p v u u0 :
  same_components u0 u -> same_components u0 (Url.searchParams_set p v u).
Proof. intros H. exact H. Qed.

Lemma same_components_set_flag a p u u0 :
  same_components u0 u -> same_components u0 (set_flag w a p u).
Proof. unfold set_flag. destruct (is_true _); intros H; exact H. Qed.

Lemma same_components_set_given a p u u0 :
  same_components u0 u -> same_components u0 (set_given w a p u).
Proof. unfold set_given. destruct (given _); intros H; exact H. Qed.

Lemma unlisted_set_flag a p u :
  In p set_parameters ->
  List.filter (fun x => negb (listed x)) (Url.query (set_flag w a p u))
  = List.filter (fun x => negb (listed x)) (Url.query u).
Proof.
  intros Hin. unfold set_flag. destruct (is_true _); [|reflexivity].
  apply unlisted_searchParams_set, Hin.
Qed.

Lemma unlisted_set_given a p u :
  In p set_parameters ->
  List.filter (fun x => negb (listed x)) (Url.query (set_given w a p u))
  = List.filter (fun x => negb (listed x)) (Url.query u).
Proof.
  intros Hin. unfold set_given. destruct (given _); [|reflexivity].
  apply unlisted_searchParams_set, Hin.
Qed.

(** With a [url] attribute that parses, the getter reaches its last line. *)
Lemma calendlyUrl_url_valid base u0 :
  getAttribute w "url" = Some base -> base <> "" -> url_parse P base = Some u0 ->
  calendlyUrl_url P w
  = Normal (Some
      (Url.searchParams_set "embed_type" "Inline"
        (Url.searchParams_set "embed_domain" (location_hostname P)
          (set_given w "primary-color" "primary_color"
            (set_given w "text-color" "text_color"
              (set_given w "background-color" "background_color"
                (set_flag w "hide-gdpr" "hide_gdpr_banner"
                  (set_flag w "hide-details" "hide_event_type_details" u0)))))))).
Proof.
  intros Hurl Hne Hparse. unfold calendlyUrl_url. rewrite Hurl. simpl.
  apply String.eqb_neq in Hne. rewrite Hne, Hparse. reflexivity.
Qed.

End Resolution.

(** C1 (as amended): for a configuration whose [url] is present and parses,
    the resolved URL has exactly one [embed_domain], the current host name,
    and exactly one [embed_type], ["Inline"].  A colour parameter is set,
    once and to the attribute's value unchanged, when the attribute is
    present and not empty; otherwise the parameter is what the given URL
    already carried under that name (nothing, if it carried none).  A hide
    parameter is set once to ["1"] when its attribute equals ["true"];
    otherwise it is what the given URL already carried. *)
Theorem C1_resolved_parameters (P : Platform) (w : Widget) (base : string)
    (u0 : Url.t) :
  getAttribute w "url" = Some base -> base <> "" -> url_parse P base = Some u0 ->
  exists u,
    calendlyUrl_url P w = Normal (Some u) /\
    calendlyUrl P w = Normal (url_href P u) /\
    Url.getAll "embed_domain" (Url.query u) = [location_hostname P] /\
    Url.getAll "embed_type" (Url.query u) = ["Inline"] /\
    (forall attr param, In (attr, param) value_parameters ->
       Url.getAll param (Url.query u)
       = match given (getAttribute w attr) with
         | Some v => [v]
         | None => Url.getAll param (Url.query u0)
         end) /\
    (forall attr param, In (attr, param) flag_parameters ->
       Url.getAll param (Url.query u)
       = if is_true (getAttribute w attr) then ["1"]
         else Url.getAll param (Url.query u0)).
Proof.
  intros Hurl Hne Hparse.
  pose proof (calendlyUrl_url_valid P w base u0 Hurl Hne Hparse) as Hres.
  eexists. split; [exact Hres|].
  split; [unfold calendlyUrl; rewrite Hres; reflexivity|].
  split; [|split; [|split]].
  - rewrite !getAll_searchParams_set. reflexivity.
  - rewrite !getAll_searchParams_set. reflexivity.
  - intros attr param Hin. simpl in Hin.
    destruct Hin as [[= <- <-]|[[= <- <-]|[[= <- <-]|[]]]];
      rewrite !getAll_searchParams_set, !getAll_set_given, !getAll_set_flag;
      simpl; rewrite ?andb_false_r;
      repeat match goal with
             | |- context [given ?a] => destruct (given a)
             end; reflexivity.
  - intros attr param Hin. simpl in Hin.
    destruct Hin as [[= <- <-]|[[= <- <-]|[]]];
      rewrite !getAll_searchParams_set, !getAll_set_given, !getAll_set_flag;
      simpl; rewrite ?andb_false_r, ?andb_true_r;
      repeat match goal with
             | |- context [given ?a] => destruct (given a)
             | |- context [is_true ?a] => destruct (is_true a)
             end; reflexivity.
Qed.

(** C9 (as amended): building the resolved request from a valid
    configuration changes nothing of the given URL, as the parser read it,
    but the listed query parameters: the resolved request is the
    serialization of a URL that has the scheme, user information, host,
    port, path and fragment of the given one and, in their order and with
    their names and decoded values, its query parameters that are not named
    in the table.  The text of the query is the serializer's, not the given
    one. *)
Theorem C9_base_url_preserved (P : Platform) (w : Widget) (base : string)
    (u0 : Url.t) :
  getAttribute w "url" = Some base -> base <> "" -> url_parse P base = Some u0 ->
  exists u,
    calendlyUrl P w = Normal (url_href P u) /\
    calendlyUrl_url P w = Normal (Some u) /\
    same_components u0 u /\
    List.filter (fun p => negb (listed p)) (Url.query u)
    = List.filter (fun p => negb (listed p)) (Url.query u0).
Proof.
  intros Hurl Hne Hparse.
  pose proof (calendlyUrl_url_valid P w base u0 Hurl Hne Hparse) as Hres.
  eexists. split; [unfold calendlyUrl; rewrite Hres; reflexivity|].
  split; [exact Hres|]. split.
  - repeat first [apply same_components_set | apply same_components_set_flag
                 | apply same_components_set_given].
    apply same_components_refl.
  - rewrite !unlisted_searchParams_set, !unlisted_set_given, !unlisted_set_flag
      by in_list.
    reflexivity.
Qed.

(** ** The element tree *)

Section Tree.

Import Dom.

Lemma find_El p e kids :
  find p (El e kids) = if p e then Some e else find_first p kids.
Proof.
  simpl. destruct (p e); [reflexivity|].
  induction kids as [|k rest IH]; [reflexivity|].
  simpl. rewrite IH. reflexivity.
Qed.

(** A write that does not change what [p] looks at does not change which
    element [find] returns, only its contents. *)
Lemma find_update p r f :
  (forall e, p (f e) = p e) ->
  forall n, find p (update r f n) = touched r f <$> find p n.
Proof.
  intros Hp. induction n as [e kids IH| |] using Node_forall_ind;
    [|reflexivity|reflexivity].
  cbn [update]. rewrite !find_El.
  assert (Hpe : p (if is_node r e then f e else e) = p e)
    by (destruct (is_node r e); [apply Hp|reflexivity]).
  rewrite Hpe. destruct (p e); [reflexivity|].
  induction IH as [|k rest Hk _ IHrest]; [reflexivity|].
  cbn [List.map find_first]. rewrite Hk.
  destruct (find p k); [reflexivity|]. exact IHrest.
Qed.

Lemma find_first_update p r f forest :
  (forall e, p (f e) = p e) ->
  find_first p (update_all r f forest) = touched r f <$> find_first p forest.
Proof.
  intros Hp. unfold update_all.
  induction forest as [|k rest IH]; [reflexivity|].
  cbn [List.map find_first]. rewrite (find_update p r f Hp).
  destruct (find p k); [reflexivity|]. exact IH.
Qed.

Lemma find_first_app p l1 l2 :
  find_first p (l1 ++ l2)
  = match find_first p l1 with
    | Some e => Some e
    | None => find_first p l2
    end.
Proof.
  induction l1 as [|k rest IH]; [reflexivity|].
  simpl. destruct (find p k); [reflexivity|]. exact IH.
Qed.

(** What [find] returns satisfies the predicate. *)
Lemma find_sound p : forall n e, find p n = Some e -> p e = true.
Proof.
  induction n as [e0 kids IH| |] using Node_forall_ind; [|discriminate..].
  intros e. rewrite find_El. destruct (p e0) eqn:Hp0.
  - intros [= <-]. exact Hp0.
  - induction IH as [|k rest Hk _ IHrest]; [discriminate|].
    simpl. destruct (find p k) eqn:Hf.
    + intros [= <-]. apply (Hk _ eq_refl).
    + exact IHrest.
Qed.

Lemma find_first_sound p forest e :
  find_first p forest = Some e -> p e = true.
Proof.
  induction forest as [|k rest IH]; [discriminate|].
  simpl. destruct (find p k) eqn:Hf.
  - intros [= <-]. exact (find_sound p k _ Hf).
  - exact IH.
Qed.

Lemma getElementById_update i r f root :
  (forall e, id (f e) = id e) ->
  getElementById i (update_all r f root) = touched r f <$> getElementById i root.
Proof.
  intros Hid. apply find_first_update. intros e. unfold has_id.
  rewrite Hid. reflexivity.
Qed.

Lemma deref_update r r' f forest :
  (forall e, nid (f e) = nid e) ->
  deref r' (update_all r f forest) = touched r f <$> deref r' forest.
Proof.
  intros Hnid. apply find_first_update. intros e. unfold is_node.
  rewrite Hnid. reflexivity.
Qed.

Lemma touched_self f e : touched (nid e) f e = f e.
Proof. unfold touched, is_node. rewrite Nat.eqb_refl. reflexivity. Qed.

Lemma height_touched_set_height r n e :
  height e = Some n -> height (touched r (set_height n) e) = Some n.
Proof. unfold touched. destruct (is_node r e); [reflexivity|auto]. Qed.

End Tree.

(** ** [updateHeight] *)

Section Height.

Variable P : Platform.

Lemma touched_at r f e : Dom.nid e = r -> touched r f e = f e.
Proof.
  intros <-. apply touched_self.
Qed.

Lemma nid_touched_set_height r n e :
  Dom.nid (touched r (Dom.set_height n) e) = Dom.nid e.
Proof. unfold touched. destruct (Dom.is_node r e); reflexivity. Qed.

(** A candidate that passes the guard, with both nodes in the structure. *)
Lemma updateHeight_found height c container iframe :
  ToBoolean height = true ->
  Dom.getElementById "container" (shadowRoot (this c)) = Some container ->
  Dom.getElementById (iframeId (this c)) (shadowRoot (this c)) = Some iframe ->
  updateHeight P height c
  = match ToNumber (StringToNumber P) height with
    | Normal h =>
        (Normal tt,
         heights_written container iframe (Math_max h (minHeight (this c))) c)
    | Throw e => (Throw e, c)
    end.
Proof.
  intros Ht Hc Hf. unfold updateHeight. rewrite Ht. cbn [negb].
  rewrite Hc, Hf. unfold bind, lift.
  destruct (ToNumber (StringToNumber P) height); reflexivity.
Qed.

Lemma heights_written_container container iframe n c :
  Dom.getElementById "container" (shadowRoot (this c)) = Some container ->
  Dom.height <$>
    Dom.getElementById "container"
      (shadowRoot (this (heights_written container iframe n c)))
  = Some (Some n).
Proof.
  intros Hc. cbn [heights_written set_this this shadowRoot].
  rewrite !getElementById_update, Hc by reflexivity.
  cbn [fmap option_fmap option_map]. f_equal.
  apply height_touched_set_height. rewrite touched_self. reflexivity.
Qed.

Lemma heights_written_iframe container iframe n c i :
  Dom.getElementById i (shadowRoot (this c)) = Some iframe ->
  Dom.height <$>
    Dom.getElementById i
      (shadowRoot (this (heights_written container iframe n c)))
  = Some (Some n).
Proof.
  intros Hf. cbn [heights_written set_this this shadowRoot].
  rewrite !getElementById_update, Hf by reflexivity.
  cbn [fmap option_fmap option_map]. f_equal.
  rewrite touched_at by apply nid_touched_set_height. reflexivity.
Qed.

(** A number that passes the guard is clamped and written to both nodes. *)
Lemma updateHeight_number n c container iframe :
  ToBoolean (VNum n) = true ->
  Dom.getElementById "container" (shadowRoot (this c)) = Some container ->
  Dom.getElementById (iframeId (this c)) (shadowRoot (this c)) = Some iframe ->
  exists c',
    updateHeight P (VNum n) c = (Normal tt, c') /\
    env c' = env c /\
    attributes (this c') = attributes (this c) /\
    iframeSuffix (this c') = iframeSuffix (this c) /\
    Dom.height <$> Dom.getElementById "container" (shadowRoot (this c'))
    = Some (Some (Math_max n (minHeight (this c)))) /\
    Dom.height <$> Dom.getElementById (iframeId (this c')) (shadowRoot (this c'))
    = Some (Some (Math_max n (minHeight (this c)))).
Proof.
  intros Ht Hc Hf. eexists. split.
  - rewrite (updateHeight_found _ _ _ _ Ht Hc Hf). reflexivity.
  - repeat split.
    + apply heights_written_container, Hc.
    + apply (heights_written_iframe container iframe _ c), Hf.
Qed.

Lemma positive_finite_truthy n : positive_finite n -> ToBoolean (VNum n) = true.
Proof. intros (m & e & ->). reflexivity. Qed.

End Height.

(** C2: for a positive, finite candidate, and a structure holding the
    container and the frame, [updateHeight] returns normally after writing
    [Math.max(candidate, minHeight)] as the height of both the container and
    the frame; with a minimum height of 700 the candidate 500 gives 700 and
    the candidate 900 gives 900. *)
Theorem C2_updateHeight_clamps (P : Platform) (n : number) (c : Ctx)
    (container iframe : Dom.Elem) :
  positive_finite n ->
  Dom.getElementById "container" (shadowRoot (this c)) = Some container ->
  Dom.getElementById (iframeId (this c)) (shadowRoot (this c)) = Some iframe ->
  exists c',
    updateHeight P (VNum n) c = (Normal tt, c') /\
    Dom.height <$> Dom.getElementById "container" (shadowRoot (this c'))
    = Some (Some (Math_max n (minHeight (this c)))) /\
    Dom.height <$> Dom.getElementById (iframeId (this c)) (shadowRoot (this c'))
    = Some (Some (Math_max n (minHeight (this c)))) /\
    (minHeight (this c) = of_Z 700 ->
     (n = of_Z 500 -> Math_max n (minHeight (this c)) = of_Z 700) /\
     (n = of_Z 900 -> Math_max n (minHeight (this c)) = of_Z 900)).
Proof.
  intros Hn Hc Hf.
  destruct (updateHeight_number P n c container iframe
              (positive_finite_truthy n Hn) Hc Hf)
    as (c' & Hrun & _ & _ & Hsuffix & Hch & Hfh).
  exists c'. split; [exact Hrun|]. split; [exact Hch|].
  split; [unfold iframeId in *; rewrite Hsuffix in Hfh; exact Hfh|].
  intros ->. split; intros ->; reflexivity.
Qed.

(** C6 (as amended): [updateHeight] returns at its guard, without looking at
    the structure and without any write, whenever the candidate is falsy:
    [undefined], [null], [+0], [-0], [NaN], [false] or the empty string. *)
Theorem C6_updateHeight_ignores_falsy (P : Platform) (height : value) (c : Ctx) :
  ToBoolean height = false ->
  updateHeight P height c = (Normal tt, c).
Proof.
  intros Ht. unfold updateHeight. rewrite Ht. reflexivity.
Qed.

(** The candidates that the guard of [updateHeight] stops. *)
Lemma falsy_values (v : value) :
  ToBoolean v = false <->
  v = VUndefined \/ v = VNull \/ v = VBool false \/ v = VStr "" \/
  v = VNum S754_nan \/ exists s, v = VNum (S754_zero s).
Proof.
  split.
  - destruct v as [| |b|n|s|f]; simpl; try discriminate; auto.
    + destruct b; [discriminate|auto].
    + destruct n; try discriminate; eauto 10.
    + destruct (String.eqb_spec s ""); [subst; auto 10|discriminate].
  - intros [->|[->|[->|[->|[->|[s ->]]]]]]; reflexivity.
Qed.

(** C10: when the structure in the shadow root lacks the container or the
    frame, [updateHeight] returns normally for every candidate and leaves
    the whole state as it was; this is the case of the empty shadow root and
    of the structure that [render] builds when no URL is configured. *)
Theorem C10_updateHeight_without_nodes (P : Platform) (height : value) (c : Ctx) :
  (Dom.getElementById "container" (shadowRoot (this c)) = None \/
   Dom.getElementById (iframeId (this c)) (shadowRoot (this c)) = None ->
   updateHeight P height c = (Normal tt, c)) /\
  (shadowRoot (this c) = [] ->
   updateHeight P height c = (Normal tt, c)) /\
  (forall minH n, shadowRoot (this c) = error_view minH n ->
   updateHeight P height c = (Normal tt, c)).
Proof.
  assert (Hnone :
    Dom.getElementById "container" (shadowRoot (this c)) = None \/
    Dom.getElementById (iframeId (this c)) (shadowRoot (this c)) = None ->
    updateHeight P height c = (Normal tt, c)).
  { intros Hnone. unfold updateHeight.
    destruct (ToBoolean height); [|reflexivity]. cbn [negb].
    destruct Hnone as [-> | ->]; [reflexivity|].
    destruct (Dom.getElementById "container" _); reflexivity. }
  split; [exact Hnone|]. split.
  - intros Hroot. apply Hnone. left. rewrite Hroot. reflexivity.
  - intros minH n Hroot. apply Hnone. left. rewrite Hroot. reflexivity.
Qed.

(** ** [render] *)

Section Render.

Variable P : Platform.


(** Without a [url] attribute, or with an empty one, [render] builds the
    structure that carries the message and no frame. *)
Lemma render_missing_url c :
  given (getAttribute (this c) "url") = None ->
  calendlyUrl P (this c) = Normal "" /\
  exists c',
    render P c = (Normal tt, c') /\
    shadowRoot (this c') = error_view (minHeight (this c)) (next_node (env c)) /\
    attributes (this c') = attributes (this c) /\
    message_listeners (env c') = message_listeners (env c).
Proof.
  intros Hurl.
  assert (Hres : calendlyUrl P (this c) = Normal "").
  { unfold calendlyUrl, calendlyUrl_url.
    destruct (getAttribute (this c) "url") as [s|]; [|reflexivity].
    simpl in *. destruct (String.eqb s ""); [reflexivity|discriminate]. }
  split; [exact Hres|]. eexists. split.
  - unfold render, bind, lift. rewrite Hres. reflexivity.
  - repeat split.
Qed.

(** When [new URL] throws, so does [render], before any assignment. *)
Lemma render_invalid_url c base :
  getAttribute (this c) "url" = Some base -> base <> "" ->
  url_parse P base = None ->
  render P c = (Throw (TypeError "Invalid URL"), c).
Proof.
  intros Hurl Hne Hparse. unfold render, bind, lift.
  unfold calendlyUrl, calendlyUrl_url. rewrite Hurl. simpl.
  apply String.eqb_neq in Hne. rewrite Hne, Hparse. reflexivity.
Qed.

Lemma has_id_iframe s e :
  Dom.id e = Some ("calendly-iframe-" ++ s) ->
  Dom.has_id ("calendly-iframe-" ++ s) e = true.
Proof. unfold Dom.has_id. intros ->. apply String.eqb_refl. Qed.


Lemma getElementById_frame_view_loading minH s url n :
  Dom.getElementById "loading" (frame_view minH ("calendly-iframe-" ++ s) url n)
  = Some (Dom.element (n + 2) "div" (Some "loading") ["loading-overlay"]).
Proof. reflexivity. Qed.

Lemma getElementById_frame_view_iframe minH s url n :
  Dom.getElementById ("calendly-iframe-" ++ s)
    (frame_view minH ("calendly-iframe-" ++ s) url n)
  = Some (Dom.with_src url
            (Dom.element (n + 4) "iframe" (Some ("calendly-iframe-" ++ s))
               ["calendly-iframe"])).
Proof.
  unfold Dom.getElementById, frame_view. cbn. rewrite String.eqb_refl. reflexivity.
Qed.



(** When [new URL] throws, [connectedCallback] throws before it renders or
    subscribes anything. *)
Lemma connectedCallback_invalid_url self c base :
  getAttribute (this c) "url" = Some base -> base <> "" ->
  url_parse P base = None ->
  connectedCallback P self c = (Throw (TypeError "Invalid URL"), c).
Proof.
  intros Hurl Hne Hparse. unfold connectedCallback, bind.
  rewrite (render_invalid_url c base Hurl Hne Hparse). reflexivity.
Qed.

(** Without a [url], [connectedCallback] renders the message and
    subscribes the handler. *)
Lemma connectedCallback_missing_url self c :
  given (getAttribute (this c) "url") = None ->
  exists c',
    connectedCallback P self c = (Normal tt, c') /\
    shadowRoot (this c') = error_view (minHeight (this c)) (next_node (env c)) /\
    In self (message_listeners (env c')).
Proof.
  intros Hurl.
  destruct (render_missing_url c Hurl) as (_ & c1 & Hrun & Hroot & _ & Hl).
  eexists. split; [|split].
  - unfold connectedCallback, bind. rewrite Hrun. reflexivity.
  - exact Hroot.
  - cbn. destruct (existsb (Nat.eqb self) (message_listeners (env c1))) eqn:Hex.
    + apply existsb_exists in Hex. destruct Hex as (k & Hk & Heq).
      apply Nat.eqb_eq in Heq. subst k. exact Hk.
    + apply in_or_app. right. left. reflexivity.
Qed.

End Render.

(** ** The message handler *)

Section Messages.

Variable P : Platform.

Lemma appends_on_env self c c' : env c' = env c -> appends_on self c c'.
Proof.
  intros Henv. unfold appends_on. rewrite Henv. repeat split.
  exists []. split; [symmetry; apply app_nil_r|constructor].
Qed.

Lemma appends_on_refl self c : appends_on self c c.
Proof. apply appends_on_env. reflexivity. Qed.

Lemma appends_on_trans self c1 c2 c3 :
  appends_on self c1 c2 -> appends_on self c2 c3 -> appends_on self c1 c3.
Proof.
  intros (Hn & Hl & Ht & evs & Hd & Hevs) (Hn' & Hl' & Ht' & evs' & Hd' & Hevs').
  repeat split; try congruence.
  exists (evs ++ evs')%list. split.
  - rewrite Hd', Hd. symmetry. apply app_assoc.
  - apply Forall_app. split; assumption.
Qed.

Lemma quiet_ret {A} self (a : A) : quiet self (ret a).
Proof. intros c. apply appends_on_refl. Qed.

Lemma quiet_lift {A} self (r : completion A) : quiet self (lift r).
Proof. intros c. apply appends_on_refl. Qed.

Lemma quiet_bind {A B} self (m : M A) (k : A -> M B) :
  quiet self m -> (forall a, quiet self (k a)) -> quiet self (bind m k).
Proof.
  intros Hm Hk c. unfold bind. specialize (Hm c).
  destruct (m c) as [[a|e] c']; simpl in *.
  - eapply appends_on_trans; [exact Hm|]. apply Hk.
  - exact Hm.
Qed.

Lemma quiet_when self b (m : M unit) : quiet self m -> quiet self (when b m).
Proof. intros Hm. destruct b; [exact Hm|apply quiet_ret]. Qed.

Lemma quiet_write self r f : quiet self (write r f).
Proof. intros c. apply appends_on_env. reflexivity. Qed.

Lemma quiet_updateHeight self height : quiet self (updateHeight P height).
Proof.
  unfold updateHeight. destruct (negb (ToBoolean height)); [apply quiet_ret|].
  intros c.
  destruct (Dom.getElementById "container" _); [|apply appends_on_refl].
  destruct (Dom.getElementById (iframeId _) _); [|apply appends_on_refl].
  apply quiet_bind; [apply quiet_lift|]. intros h.
  apply quiet_bind; [apply quiet_write|]. intros _. apply quiet_write.
Qed.

Lemma quiet_dispatchEvent self name payload :
  quiet self (dispatchEvent self name payload).
Proof.
  intros c. repeat split. eexists. split; [reflexivity|].
  constructor; [reflexivity|constructor].
Qed.

(** The handler of an instance touches nothing in the window but the list
    of dispatched events, and adds only events dispatched on its instance. *)
Lemma quiet_handleMessage self event : quiet self (handleMessage P self event).
Proof.
  unfold handleMessage.
  destruct (negb (includes _ _)); [apply quiet_ret|].
  destruct (_ || _); [apply quiet_ret|].
  repeat (apply quiet_bind; [|intros _]);
    apply quiet_when;
    first [apply quiet_updateHeight | apply quiet_dispatchEvent].
Qed.

(** A message whose origin lacks the text [calendly.com] changes nothing. *)
Lemma handleMessage_untrusted self event c :
  includes "calendly.com" (origin event) = false ->
  handleMessage P self event c = (Normal tt, c).
Proof. intros H. unfold handleMessage. rewrite H. reflexivity. Qed.

(** A message without data, or whose data has no truthy [event], changes
    nothing. *)
Lemma handleMessage_no_event self event c :
  ToBoolean (data event) = false \/ ToBoolean (get (data event) "event") = false ->
  handleMessage P self event c = (Normal tt, c).
Proof.
  intros H. unfold handleMessage.
  destruct (negb (includes _ _)); [reflexivity|].
  destruct H as [-> | ->]; rewrite ?orb_true_r; reflexivity.
Qed.

(** A message whose [event] is none of the four names changes nothing. *)
Lemma handleMessage_unrecognized self event c :
  (forall name, In name recognized_events ->
     is_str (get (data event) "event") name = false) ->
  handleMessage P self event c = (Normal tt, c).
Proof.
  intros H. unfold handleMessage.
  destruct (negb (includes _ _)); [reflexivity|].
  destruct (_ || _); [reflexivity|].
  rewrite !H by (simpl; auto 10). reflexivity.
Qed.

End Messages.

Example not_trusted_example_is_dropped (P : Platform) (self : nat) (c : Ctx) :
  handleMessage P self
    {| origin := "https://not-trusted.example";
       data := VObj [("event", VStr "calendly.page_height");
                     ("payload", VObj [("height", VNum (of_Z 1200))])] |} c
  = (Normal tt, c).
Proof. apply handleMessage_untrusted. reflexivity. Qed.

(** A message that passes the origin test and carries one of the forwarded
    event names makes the handler dispatch one event and do nothing else. *)
Lemma handleMessage_forwarded (P : Platform) (self : nat)
    (event : MessageEvent) (inbound outbound : string) (c : Ctx) :
  includes "calendly.com" (origin event) = true ->
  In (inbound, outbound) forwarded_events ->
  get (data event) "event" = VStr inbound ->
  handleMessage P self event c
  = (Normal tt,
     dispatched_one self
       {| type := outbound; detail := init_detail (get (data event) "payload");
          bubbles := true; composed := true |} c).
Proof.
  intros Horigin Hin Hevent. unfold handleMessage.
  rewrite Horigin, Hevent. cbn [negb].
  assert (Hdata : ToBoolean (data event) = true).
  { destruct (data event); try discriminate Hevent. reflexivity. }
  rewrite Hdata.
  simpl in Hin.
  destruct Hin as [[= <- <-]|[[= <- <-]|[[= <- <-]|[]]]]; reflexivity.
Qed.

(** ** The page *)

Section Page.

Variable P : Platform.

Lemma call_missing i m w : instances w !! i = None -> call i m w = w.
Proof. intros H. unfold call. rewrite H. reflexivity. Qed.

Lemma call_present i m w wd :
  instances w !! i = Some wd ->
  call i m w
  = {| instances := <[i := this (snd (m {| this := wd; env := global w |}))]>
                      (instances w);
       global := env (snd (m {| this := wd; env := global w |}));
       uncaught := match fst (m {| this := wd; env := global w |}) with
                   | Normal _ => uncaught w
                   | Throw e => uncaught w ++ [e]
                   end |}.
Proof.
  intros H. unfold call. rewrite H.
  destruct (m _) as [r c]. reflexivity.
Qed.

Lemma filter_on_other i j (evs : list (nat * CustomEvent)) :
  i <> j -> Forall (fun x => fst x = j) evs -> List.filter (on i) evs = [].
Proof.
  intros Hne Hall. induction Hall as [|x rest Hx _ IH]; [reflexivity|].
  simpl. unfold on at 1. rewrite Hx.
  destruct (Nat.eqb_spec j i); [congruence|exact IH].
Qed.

(** A callback of instance [j] that is quiet leaves the other instances,
    the events dispatched on them, the listeners and the timers alone. *)
Lemma call_quiet_other i j (m : M unit) w :
  i <> j -> quiet j m ->
  instances (call j m w) !! i = instances w !! i /\
  events_on i (call j m w) = events_on i w /\
  message_listeners (global (call j m w)) = message_listeners (global w) /\
  timers (global (call j m w)) = timers (global w).
Proof.
  intros Hne Hq. destruct (instances w !! j) as [wd|] eqn:Hj.
  - rewrite (call_present j m w wd Hj).
    destruct (Hq {| this := wd; env := global w |})
      as (_ & Hl & Ht & evs & Hd & Hevs).
    cbn [instances global env] in *.
    split; [apply lookup_insert_ne; congruence|].
    split; [|split; assumption].
    unfold events_on. cbn [global]. rewrite Hd, List.filter_app.
    rewrite (filter_on_other i j evs Hne Hevs). apply app_nil_r.
  - rewrite (call_missing j m w Hj). repeat split.
Qed.

Lemma deliver_other event i (l : list nat) :
  ~ In i l ->
  forall w,
    let w' := fold_left (fun w k => call k (handleMessage P k event) w) l w in
    instances w' !! i = instances w !! i /\
    events_on i w' = events_on i w /\
    message_listeners (global w') = message_listeners (global w) /\
    timers (global w') = timers (global w).
Proof.
  induction l as [|k rest IH]; intros Hnot w; [repeat split|].
  cbn [fold_left].
  assert (Hk : i <> k) by (intros ->; apply Hnot; left; reflexivity).
  assert (Hrest : ~ In i rest) by (intros Hin; apply Hnot; right; exact Hin).
  destruct (call_quiet_other i k (handleMessage P k event) w Hk
              (quiet_handleMessage P k event)) as (H1 & H2 & H3 & H4).
  destruct (IH Hrest (call k (handleMessage P k event) w)) as (H1' & H2' & H3' & H4').
  repeat split; congruence.
Qed.

(** Unmounting removes the handler of the instance and changes nothing
    else. *)
Lemma disconnect_present i w wd :
  instances w !! i = Some wd ->
  let w1 := step P w (Disconnect i) in
  ~ In i (message_listeners (global w1)) /\
  instances w1 !! i = Some wd /\
  dispatched (global w1) = dispatched (global w) /\
  timers (global w1) = timers (global w).
Proof.
  intros Hi. cbn [step].
  rewrite (call_present i _ w wd Hi). cbn.
  split; [|split; [apply lookup_insert_eq|split; reflexivity]].
  intros Hin. apply filter_In in Hin. destruct Hin as [_ Hin].
  rewrite Nat.eqb_refl in Hin. discriminate.
Qed.

Lemma run_messages_other i (events : list MessageEvent) :
  forall w,
    ~ In i (message_listeners (global w)) ->
    let w' := run P (List.map PostMessage events) w in
    message_listeners (global w') = message_listeners (global w) /\
    instances w' !! i = instances w !! i /\
    events_on i w' = events_on i w.
Proof.
  induction events as [|event rest IH]; intros w Hnot; [repeat split|].
  unfold run in *. cbn [List.map fold_left step].
  destruct (deliver_other event i _ Hnot w) as (H1 & H2 & H3 & _).
  fold (deliver P event w) in H1, H2, H3.
  assert (Hnot' : ~ In i (message_listeners (global (deliver P event w))))
    by (rewrite H3; exact Hnot).
  destruct (IH (deliver P event w) Hnot') as (H1' & H2' & H3').
  repeat split; congruence.
Qed.

(** What a callback keeps of the window, the page keeps. *)
Lemma call_keeps {A : Type} (field : Window -> A) i (m : M unit) w :
  (forall c, field (env (snd (m c))) = field (env c)) ->
  field (global (call i m w)) = field (global w).
Proof.
  intros Hm. destruct (instances w !! i) as [wd|] eqn:Hi.
  - rewrite (call_present i m w wd Hi). cbn [global]. apply Hm.
  - rewrite (call_missing i m w Hi). reflexivity.
Qed.

Lemma call_timers i (m : M unit) w :
  (forall c, timers (env (snd (m c))) = timers (env c)) ->
  timers (global (call i m w)) = timers (global w).
Proof. apply (call_keeps timers). Qed.

(** [render] schedules nothing and cancels nothing. *)
Lemma render_timers c : timers (env (snd (render P c))) = timers (env c).
Proof.
  unfold render, bind, lift.
  destruct (calendlyUrl P (this c)) as [url|e]; [|reflexivity].
  destruct (String.eqb url ""); [reflexivity|].
  cbn [set_innerHTML modify].
  destruct (Dom.getElementById (iframeId _) _); reflexivity.
Qed.

Lemma attributeChangedCallback_timers name old new c :
  timers (env (snd (attributeChangedCallback P name old new c))) = timers (env c).
Proof.
  unfold attributeChangedCallback.
  destruct (_ && _); [apply render_timers|reflexivity].
Qed.

Lemma change_attribute_timers i name new w :
  timers (global (change_attribute P i name new w)) = timers (global w).
Proof.
  unfold change_attribute. destruct (instances w !! i); [|reflexivity].
  destruct (observed name); [|reflexivity].
  rewrite call_timers by apply attributeChangedCallback_timers. reflexivity.
Qed.

(** The callback of the settle delay marks the node it captured, wherever
    the instance still holds it. *)
Lemma settle_marks r c :
  let c' := snd (settle (Some r) c) in
  fst (settle (Some r) c) = Normal tt /\
  Dom.deref r (shadowRoot (this c') ++ replaced (this c'))
  = Dom.classList_add "hidden"
      <$> Dom.deref r (shadowRoot (this c) ++ replaced (this c)).
Proof.
  split; [reflexivity|].
  cbn [settle write modify set_this snd this shadowRoot replaced].
  unfold Dom.update_all at 1 2. rewrite <- List.map_app.
  fold (Dom.update_all r (Dom.classList_add "hidden")
          (shadowRoot (this c) ++ replaced (this c))).
  rewrite deref_update by reflexivity.
  destruct (Dom.deref r _) as [e|] eqn:He; [|reflexivity].
  cbn. f_equal. apply touched_at.
  apply find_first_sound in He. apply Nat.eqb_eq. exact He.
Qed.

End Page.

(** ** Subscriptions *)

Section Subscription.

Variable P : Platform.

Lemma render_listeners c :
  message_listeners (env (snd (render P c))) = message_listeners (env c).
Proof.
  unfold render, bind, lift.
  destruct (calendlyUrl P (this c)) as [url|e]; [|reflexivity].
  destruct (String.eqb url ""); [reflexivity|].
  cbn [set_innerHTML modify].
  destruct (Dom.getElementById (iframeId _) _); reflexivity.
Qed.

Lemma for_each_setTimeout_listeners self l c :
  message_listeners (env (snd (for_each (setTimeout self) l c)))
  = message_listeners (env c).
Proof.
  revert c. induction l as [|o rest IH]; intros c; [reflexivity|].
  cbn [for_each]. unfold bind. cbn [setTimeout modify]. rewrite IH. reflexivity.
Qed.

Lemma deliver_listeners event (l : list nat) :
  forall w,
    message_listeners
      (global (fold_left (fun w k => call k (handleMessage P k event) w) l w))
    = message_listeners (global w).
Proof.
  induction l as [|k rest IH]; intros w; [reflexivity|].
  cbn [fold_left]. rewrite IH. apply (call_keeps message_listeners).
  intros c. apply (quiet_handleMessage P k event c).
Qed.

Lemma NoDup_add (k : nat) (l : list nat) :
  NoDup l -> NoDup (if existsb (Nat.eqb k) l then l else (l ++ [k])%list).
Proof.
  intros Hl. destruct (existsb (Nat.eqb k) l) eqn:Hk; [exact Hl|].
  apply NoDup_app. split; [exact Hl|]. split.
  - intros x Hx Hxk. apply list_elem_of_In in Hx, Hxk.
    destruct Hxk as [<-|[]].
    assert (Hex : existsb (Nat.eqb k) l = true)
      by (apply existsb_exists; exists k; split; [exact Hx|apply Nat.eqb_refl]).
    congruence.
  - apply NoDup_singleton.
Qed.

(** Mounting an instance twice does not subscribe its handler twice: no
    task of the host makes a handler occur twice among the listeners. *)
Lemma step_listeners_NoDup w t :
  NoDup (message_listeners (global w)) ->
  NoDup (message_listeners (global (step P w t))).
Proof.
  intros Hw. destruct t as [i s a|i|i|i n v|i n|event|i r|k]; cbn [step].
  - destruct (instances w !! i); exact Hw.
  - destruct (instances w !! i) as [wd|] eqn:Hi;
      [|rewrite (call_missing _ _ _ Hi); exact Hw].
    rewrite (call_present _ _ _ _ Hi). cbn [global].
    unfold connectedCallback, bind.
    pose proof (render_listeners {| this := wd; env := global w |}) as Hr.
    destruct (render P _) as [[[]|e] c']; cbn [snd] in *.
    + cbn. rewrite Hr. apply NoDup_add, Hw.
    + rewrite Hr. exact Hw.
  - destruct (instances w !! i) as [wd|] eqn:Hi;
      [|rewrite (call_missing _ _ _ Hi); exact Hw].
    rewrite (call_present _ _ _ _ Hi). cbn.
    apply NoDup_ListNoDup, List.NoDup_filter, NoDup_ListNoDup, Hw.
  - unfold change_attribute. destruct (instances w !! i); [|exact Hw].
    destruct (observed n); [|exact Hw].
    rewrite (call_keeps message_listeners); [exact Hw|].
    intros c. unfold attributeChangedCallback.
    destruct (_ && _); [apply render_listeners|reflexivity].
  - unfold change_attribute. destruct (instances w !! i); [|exact Hw].
    destruct (observed n); [|exact Hw].
    rewrite (call_keeps message_listeners); [exact Hw|].
    intros c. unfold attributeChangedCallback.
    destruct (_ && _); [apply render_listeners|reflexivity].
  - unfold deliver. rewrite deliver_listeners. exact Hw.
  - rewrite (call_keeps message_listeners); [exact Hw|].
    intros c. unfold frame_loaded.
    destruct (Dom.deref r _); [apply for_each_setTimeout_listeners|reflexivity].
  - destruct (timers (global w) !! k) as [tm|]; [|exact Hw].
    rewrite (call_keeps message_listeners); [exact Hw|].
    intros c. destruct (overlay tm); reflexivity.
Qed.

Lemma run_listeners_NoDup tasks :
  forall w,
    NoDup (message_listeners (global w)) ->
    NoDup (message_listeners (global (run P tasks w))).
Proof.
  unfold run. induction tasks as [|t rest IH]; intros w Hw; [exact Hw|].
  cbn [fold_left]. apply IH, step_listeners_NoDup, Hw.
Qed.

(** On a page that the host built from the empty one, every handler is
    subscribed at most once. *)
Lemma reachable_listeners_NoDup tasks :
  NoDup (message_listeners (global (run P tasks empty_world))).
Proof. apply run_listeners_NoDup. constructor. Qed.

(** When the handler of instance [i] forwards a message, the page gets one
    more event on [i] and the instance stays as it was. *)
Lemma call_forwarded i event inbound outbound w wd :
  includes "calendly.com" (origin event) = true ->
  In (inbound, outbound) forwarded_events ->
  get (data event) "event" = VStr inbound ->
  instances w !! i = Some wd ->
  let w' := call i (handleMessage P i event) w in
  instances w' !! i = Some wd /\
  events_on i w'
  = (events_on i w ++
       [(i, {| type := outbound; detail := init_detail (get (data event) "payload");
               bubbles := true; composed := true |})])%list.
Proof.
  intros Horigin Hin Hevent Hi. cbn zeta.
  rewrite (call_present _ _ _ _ Hi).
  rewrite (handleMessage_forwarded P i event inbound outbound _ Horigin Hin Hevent).
  cbn [fst snd instances global dispatched_one this env].
  split; [apply lookup_insert_eq|].
  unfold events_on. cbn [global dispatched].
  rewrite List.filter_app. cbn [List.filter]. unfold on at 2. cbn [fst].
  rewrite Nat.eqb_refl. reflexivity.
Qed.

(** A forwarded message on a page: every subscribed instance dispatches
    its one event. *)
Lemma deliver_forwarded i event inbound outbound w wd :
  includes "calendly.com" (origin event) = true ->
  In (inbound, outbound) forwarded_events ->
  get (data event) "event" = VStr inbound ->
  NoDup (message_listeners (global w)) ->
  In i (message_listeners (global w)) ->
  instances w !! i = Some wd ->
  instances (deliver P event w) !! i = Some wd /\
  events_on i (deliver P event w)
  = (events_on i w ++
       [(i, {| type := outbound; detail := init_detail (get (data event) "payload");
               bubbles := true; composed := true |})])%list.
Proof.
  intros Horigin Hin Hevent Hnodup Hmem Hi. unfold deliver.
  destruct (in_split _ _ Hmem) as (l1 & l2 & Hsplit).
  rewrite Hsplit in Hnodup |- *.
  apply NoDup_ListNoDup, List.NoDup_remove_2 in Hnodup.
  assert (Hl1 : ~ In i l1) by (intros H; apply Hnodup, in_or_app; left; exact H).
  assert (Hl2 : ~ In i l2) by (intros H; apply Hnodup, in_or_app; right; exact H).
  rewrite fold_left_app. cbn [fold_left].
  destruct (deliver_other P event i l1 Hl1 w) as (Ha1 & Ha2 & _).
  set (wa := fold_left _ l1 w) in *.
  assert (Hia : instances wa !! i = Some wd) by (rewrite Ha1; exact Hi).
  destruct (call_forwarded i event inbound outbound wa wd Horigin Hin Hevent Hia)
    as (Hb1 & Hb2).
  set (wb := call i _ wa) in *.
  destruct (deliver_other P event i l2 Hl2 wb) as (Hc1 & Hc2 & _).
  split; [rewrite Hc1; exact Hb1|].
  rewrite Hc2, Hb2, Ha2. reflexivity.
Qed.

End Subscription.

(** C7: a message that passes the origin test and whose [event] is
    [calendly.event_scheduled] makes the handler dispatch exactly one event,
    of type [scheduled], which bubbles and is composed, so that it leaves
    the shadow tree; nothing else changes.  Its [detail] is the message's
    [payload] unchanged; only a message that has no payload, of which
    [payload] is [undefined], gives the event the default detail, [null].
    The same holds for [calendly.date_and_time_selected] with
    [datetime-selected] and for [calendly.event_type_viewed] with [viewed].
    On a page, where each handler is subscribed at most once, the message
    adds exactly that one event to those dispatched on a subscribed
    instance. *)
Theorem C7_interaction_events_forwarded (P : Platform) (self : nat)
    (event : MessageEvent) (inbound outbound : string) :
  includes "calendly.com" (origin event) = true ->
  In (inbound, outbound) forwarded_events ->
  get (data event) "event" = VStr inbound ->
  let forwarded :=
    {| type := outbound; detail := init_detail (get (data event) "payload");
       bubbles := true; composed := true |} in
  (get (data event) "payload" <> VUndefined ->
   detail forwarded = get (data event) "payload") /\
  (get (data event) "payload" = VUndefined -> detail forwarded = VNull) /\
  (forall c,
     handleMessage P self event c = (Normal tt, dispatched_one self forwarded c)) /\
  (forall w wd,
     NoDup (message_listeners (global w)) ->
     In self (message_listeners (global w)) ->
     instances w !! self = Some wd ->
     instances (step P w (PostMessage event)) !! self = Some wd /\
     events_on self (step P w (PostMessage event))
     = (events_on self w ++ [(self, forwarded)])%list).
Proof.
  intros Horigin Hin Hevent forwarded. split; [|split; [|split]].
  - intros Hp. cbn [forwarded detail].
    destruct (get (data event) "payload"); first [reflexivity|contradiction].
  - intros Hp. cbn [forwarded detail]. rewrite Hp. reflexivity.
  - intros c. apply (handleMessage_forwarded P self event inbound outbound c);
      assumption.
  - intros w wd Hnodup Hmem Hi. cbn [step].
    apply (deliver_forwarded P self event inbound outbound w wd); assumption.
Qed.

(** C8: once an instance is unmounted its handler is no longer among the
    listeners of the window, and whatever messages arrive afterwards, the
    instance keeps the state it had and no event is dispatched on it. *)
Theorem C8_detached_instance_unaffected (P : Platform) (w : World) (i : nat)
    (wd : Widget) (events : list MessageEvent) :
  instances w !! i = Some wd ->
  let w1 := step P w (Disconnect i) in
  let w2 := run P (List.map PostMessage events) w1 in
  ~ In i (message_listeners (global w1)) /\
  ~ In i (message_listeners (global w2)) /\
  instances w1 !! i = Some wd /\
  instances w2 !! i = Some wd /\
  events_on i w2 = events_on i w.
Proof.
  intros Hi w1 w2.
  destruct (disconnect_present P i w wd Hi) as (Hnot & Hwd & Hd & _).
  fold w1 in Hnot, Hwd, Hd.
  destruct (run_messages_other P i events w1 Hnot) as (Hl & Hinst & Hev).
  fold w2 in Hl, Hinst, Hev.
  split; [exact Hnot|]. split; [rewrite Hl; exact Hnot|].
  split; [exact Hwd|]. split; [rewrite Hinst; exact Hwd|].
  rewrite Hev. unfold events_on. rewrite Hd. reflexivity.
Qed.

(** C5 (as amended): the settle delay is not cancellable.  Unmounting an
    instance, changing or removing one of its attributes, and [render]
    itself leave every pending timer pending; and when the timer fires, its
    callback returns normally after adding [hidden] to the class list of the
    overlay it captured, wherever the instance still holds that node: in the
    current structure, or among the structures that a later [render]
    replaced. *)
Theorem C5_settle_timer_not_cancelled (P : Platform) (w : World) (i : nat)
    (name value : string) (r : nat) (c : Ctx) :
  timers (global (step P w (Disconnect i))) = timers (global w) /\
  timers (global (step P w (SetAttribute i name value))) = timers (global w) /\
  timers (global (step P w (RemoveAttribute i name))) = timers (global w) /\
  timers (env (snd (render P c))) = timers (env c) /\
  fst (settle (Some r) c) = Normal tt /\
  Dom.deref r (shadowRoot (this (snd (settle (Some r) c)))
               ++ replaced (this (snd (settle (Some r) c))))
  = Dom.classList_add "hidden"
      <$> Dom.deref r (shadowRoot (this c) ++ replaced (this c)).
Proof.
  split; [|split; [|split; [|split]]].
  - cbn [step]. apply call_timers. reflexivity.
  - apply change_attribute_timers.
  - apply change_attribute_timers.
  - apply render_timers.
  - apply settle_marks.
Qed.

(** ** The component on a page of the reference host *)

Example sample_resolved :
  calendlyUrl Reference.host sample_widget
  = Normal "https://calendly.com/acme/intro?month=2024-01&hide_gdpr_banner=1&primary_color=FF8122&embed_domain=www.example.com&embed_type=Inline".
Proof. reflexivity. Qed.

Example sample_mounted :
  message_listeners (global (mounted sample_attributes)) = [1] /\
  uncaught (mounted sample_attributes) = [] /\
  height_of "container" (mounted sample_attributes) = Some None /\
  classes_of_id "loading" (mounted sample_attributes) = Some ["loading-overlay"].
Proof. vm_compute. repeat split. Qed.

Example trusted_page_height :
  let w := step Reference.host (mounted sample_attributes)
             (PostMessage (page_height "https://calendly.com" 1200)) in
  height_of "container" w = Some (Some (of_Z 1200)) /\
  height_of "calendly-iframe-k3x9" w = Some (Some (of_Z 1200)).
Proof. vm_compute. repeat split. Qed.

Lemma C1_resolved_parameters_witness :
  getAttribute sample_widget "url" = Some sample_base /\
  sample_base <> "" /\
  url_parse Reference.host sample_base = Some sample_url /\
  exists u,
    calendlyUrl_url Reference.host sample_widget = Normal (Some u) /\
    Url.getAll "embed_domain" (Url.query u) = ["www.example.com"] /\
    Url.getAll "embed_type" (Url.query u) = ["Inline"] /\
    Url.getAll "primary_color" (Url.query u) = ["FF8122"] /\
    Url.getAll "text_color" (Url.query u) = [] /\
    Url.getAll "hide_gdpr_banner" (Url.query u) = ["1"].
Proof.
  assert (Hne : sample_base <> "") by discriminate.
  split; [reflexivity|]. split; [exact Hne|]. split; [reflexivity|].
  destruct (C1_resolved_parameters Reference.host sample_widget sample_base
              sample_url eq_refl Hne eq_refl)
    as (u & Hu & _ & Hdomain & Htype & Hvalue & Hflag).
  exists u. split; [exact Hu|]. split; [exact Hdomain|]. split; [exact Htype|].
  split; [|split].
  - apply (Hvalue "primary-color" "primary_color"). in_list.
  - apply (Hvalue "text-color" "text_color"). in_list.
  - apply (Hflag "hide-gdpr" "hide_gdpr_banner"). in_list.
Defined.

(** C1, as stated, fails: with a [url] that already carries
    [background_color] the resolved URL has that parameter although no
    [background-color] attribute is supplied, and a [text-color] attribute
    supplied with the empty value sets no parameter. *)
Lemma C1_counterexample :
  let w := new_widget "k3x9"
             (<["url" := "https://calendly.com/acme?background_color=ffffff"]>
                (<["text-color" := ""]> ∅)) in
  exists u,
    calendlyUrl_url Reference.host w = Normal (Some u) /\
    (getAttribute w "background-color" = None /\
     Url.getAll "background_color" (Url.query u) = ["ffffff"]) /\
    (getAttribute w "text-color" = Some "" /\
     Url.has "text_color" (Url.query u) = false).
Proof. eexists. vm_compute. repeat split. Qed.

Lemma C9_base_url_preserved_witness :
  getAttribute sample_widget "url" = Some sample_base /\
  sample_base <> "" /\
  url_parse Reference.host sample_base = Some sample_url /\
  exists u,
    calendlyUrl Reference.host sample_widget = Normal (url_href Reference.host u) /\
    calendlyUrl_url Reference.host sample_widget = Normal (Some u) /\
    same_components sample_url u /\
    List.filter (fun p => negb (listed p)) (Url.query u) = [("month", "2024-01")].
Proof.
  assert (Hne : sample_base <> "") by discriminate.
  split; [reflexivity|]. split; [exact Hne|]. split; [reflexivity|].
  exact (C9_base_url_preserved Reference.host sample_widget sample_base
           sample_url eq_refl Hne eq_refl).
Defined.

(** C9, as stated, fails: a query parameter of the given URL does not
    appear unmodified in the resolved request.  The given URL writes the
    parameter [name] as [name=John%20Doe]; the getter reads it as the
    pair of [name] and [John Doe] and the request writes it as
    [name=John+Doe]. *)
Lemma C9_counterexample :
  let base := "https://calendly.com/acme?name=John%20Doe" in
  let w := new_widget "k3x9" (<["url" := base]> ∅) in
  let request :=
    "https://calendly.com/acme?name=John+Doe&embed_domain=www.example.com&embed_type=Inline" in
  (Url.query <$> url_parse Reference.host base) = Some [("name", "John Doe")] /\
  calendlyUrl Reference.host w = Normal request /\
  includes "name=John%20Doe" base = true /\
  includes "name=John%20Doe" request = false.
Proof. vm_compute. repeat split. Qed.

Lemma C2_updateHeight_clamps_witness :
  positive_finite (of_Z 500) /\
  minHeight (this (mounted_ctx sample_attributes)) = of_Z 700 /\
  exists c',
    updateHeight Reference.host (VNum (of_Z 500)) (mounted_ctx sample_attributes)
    = (Normal tt, c') /\
    Dom.height <$> Dom.getElementById "container" (shadowRoot (this c'))
    = Some (Some (of_Z 700)) /\
    Dom.height <$> Dom.getElementById "calendly-iframe-k3x9" (shadowRoot (this c'))
    = Some (Some (of_Z 700)).
Proof.
  assert (Hpos : positive_finite (of_Z 500)) by (eexists; eexists; reflexivity).
  split; [exact Hpos|]. split; [reflexivity|].
  destruct (C2_updateHeight_clamps Reference.host (of_Z 500)
              (mounted_ctx sample_attributes) _ _ Hpos eq_refl eq_refl)
    as (c' & Hrun & Hcontainer & Hframe & _).
  exists c'. split; [exact Hrun|]. split; [exact Hcontainer|exact Hframe].
Defined.

(** An infinite candidate passes the guard as well. *)
Example updateHeight_infinite :
  ToBoolean (VNum Infinity) = true /\
  Math_max Infinity (minHeight (this (mounted_ctx sample_attributes))) = Infinity.
Proof. split; reflexivity. Qed.

Example updateHeight_900 :
  let c' := snd (updateHeight Reference.host (VNum (of_Z 900))
                   (mounted_ctx sample_attributes)) in
  Dom.height <$> Dom.getElementById "container" (shadowRoot (this c'))
  = Some (Some (of_Z 900)) /\
  Dom.height <$> Dom.getElementById "calendly-iframe-k3x9" (shadowRoot (this c'))
  = Some (Some (of_Z 900)).
Proof. vm_compute. repeat split. Qed.

Lemma C6_updateHeight_ignores_falsy_witness :
  ToBoolean VUndefined = false /\
  updateHeight Reference.host VUndefined (mounted_ctx sample_attributes)
  = (Normal tt, mounted_ctx sample_attributes).
Proof.
  split; [reflexivity|].
  exact (C6_updateHeight_ignores_falsy Reference.host VUndefined
           (mounted_ctx sample_attributes) eq_refl).
Defined.

(** C6, as stated, fails: a negative candidate is not a positive number, yet
    it passes the guard and is written after clamping.  Here the reported
    height 1200 is followed by the candidate -5, and the height of both
    nodes goes from 1200 to 700. *)
Lemma C6_counterexample :
  let w1 := step Reference.host (mounted sample_attributes)
              (PostMessage (page_height "https://calendly.com" 1200)) in
  let w2 := step Reference.host w1
              (PostMessage (page_height "https://calendly.com" (-5))) in
  ToBoolean (VNum (of_Z (-5))) = true /\
  height_of "container" w1 = Some (Some (of_Z 1200)) /\
  height_of "calendly-iframe-k3x9" w1 = Some (Some (of_Z 1200)) /\
  height_of "container" w2 = Some (Some (of_Z 700)) /\
  height_of "calendly-iframe-k3x9" w2 = Some (Some (of_Z 700)).
Proof. vm_compute. repeat split. Qed.

Lemma C10_updateHeight_without_nodes_witness :
  Dom.getElementById "container" (shadowRoot (this (mounted_ctx ∅))) = None /\
  shadowRoot (this (mounted_ctx ∅)) = error_view (of_Z 700) 0 /\
  updateHeight Reference.host (VNum (of_Z 900)) (mounted_ctx ∅)
  = (Normal tt, mounted_ctx ∅).
Proof.
  split; [reflexivity|]. split; [reflexivity|].
  apply (proj1 (C10_updateHeight_without_nodes Reference.host (VNum (of_Z 900))
                  (mounted_ctx ∅))).
  left. reflexivity.
Defined.

Lemma C7_interaction_events_forwarded_witness :
  includes "calendly.com" (origin scheduled_message) = true /\
  get (data scheduled_message) "event" = VStr "calendly.event_scheduled" /\
  get (data scheduled_message) "payload" = VObj [("foo", VNum (of_Z 1))] /\
  handleMessage Reference.host 1 scheduled_message (mounted_ctx sample_attributes)
  = (Normal tt,
     dispatched_one 1
       {| type := "scheduled"; detail := VObj [("foo", VNum (of_Z 1))];
          bubbles := true; composed := true |}
       (mounted_ctx sample_attributes)) /\
  events_on 1 (step Reference.host (mounted sample_attributes)
                 (PostMessage scheduled_message))
  = [(1, {| type := "scheduled"; detail := VObj [("foo", VNum (of_Z 1))];
            bubbles := true; composed := true |})].
Proof.
  split; [reflexivity|]. split; [reflexivity|]. split; [reflexivity|].
  destruct (C7_interaction_events_forwarded Reference.host 1 scheduled_message
              "calendly.event_scheduled" "scheduled" eq_refl
              (or_introl eq_refl) eq_refl) as (_ & _ & Hhandler & Hpage).
  split; [apply Hhandler|].
  apply (Hpage (mounted sample_attributes) (this (mounted_ctx sample_attributes))).
  - apply reachable_listeners_NoDup.
  - left. reflexivity.
  - reflexivity.
Defined.

(** A forwarded message without payload: the event carries [null]. *)
Example forwarded_without_payload (c : Ctx) :
  handleMessage Reference.host 1
    {| origin := "https://calendly.com";
       data := VObj [("event", VStr "calendly.event_type_viewed")] |} c
  = (Normal tt,
     dispatched_one 1
       {| type := "viewed"; detail := VNull; bubbles := true; composed := true |} c).
Proof. reflexivity. Qed.

Lemma C8_detached_instance_unaffected_witness :
  let w1 := step Reference.host (mounted sample_attributes) (Disconnect 1) in
  let w2 := run Reference.host
              [PostMessage (page_height "https://calendly.com" 1200);
               PostMessage scheduled_message] w1 in
  instances (mounted sample_attributes) !! 1
  = Some (this (mounted_ctx sample_attributes)) /\
  ~ In 1 (message_listeners (global w2)) /\
  instances w2 !! 1 = Some (this (mounted_ctx sample_attributes)) /\
  events_on 1 w2 = [].
Proof.
  intros w1 w2.
  assert (Hi : instances (mounted sample_attributes) !! 1
               = Some (this (mounted_ctx sample_attributes))) by reflexivity.
  split; [exact Hi|].
  destruct (C8_detached_instance_unaffected Reference.host
              (mounted sample_attributes) 1 _
              [page_height "https://calendly.com" 1200; scheduled_message] Hi)
    as (_ & Hnot & _ & Hsame & Hevents).
  split; [exact Hnot|]. split; [exact Hsame|exact Hevents].
Defined.

(** C3 on a spoofed origin: the origin [https://calendly.com.evil.example]
    is not the embedding service's, yet it contains the text [calendly.com],
    and its height report is applied.  The origin
    [https://not-trusted.example] is dropped. *)
Theorem C3_spoofed_origin_is_handled :
  let w := step Reference.host (mounted sample_attributes)
             (PostMessage (page_height "https://calendly.com.evil.example" 1200)) in
  let w' := step Reference.host (mounted sample_attributes)
              (PostMessage (page_height "https://not-trusted.example" 1200)) in
  height_of "container" (mounted sample_attributes) = Some None /\
  height_of "container" w = Some (Some (of_Z 1200)) /\
  height_of "calendly-iframe-k3x9" w = Some (Some (of_Z 1200)) /\
  w' = mounted sample_attributes.
Proof. vm_compute. repeat split. Qed.

(** C4 on a [url] that does not parse: mounting the instance throws out of
    [connectedCallback]; nothing is rendered in the shadow root and the
    handler is never subscribed.  With no [url] the message is rendered. *)
Theorem C4_invalid_url_is_thrown :
  let w := mounted (<["url" := "not a url"]> ∅) in
  uncaught w = [TypeError "Invalid URL"] /\
  (shadowRoot <$> instances w !! 1) = Some [] /\
  message_listeners (global w) = [] /\
  uncaught (mounted ∅) = [] /\
  (shadowRoot <$> instances (mounted ∅) !! 1) = Some (error_view (of_Z 700) 0).
Proof. vm_compute. repeat split. Qed.

(** C5, as stated, fails.  After the frame has loaded, the timer is still
    pending once the instance is unmounted, and firing it hides the overlay
    of the unmounted instance; after a change of [url] the timer is still
    pending too, and firing it marks the overlay of the replaced structure
    while the new overlay stays visible. *)
Lemma C5_counterexample :
  let loaded := step Reference.host (mounted sample_attributes) (FrameLoaded 1 4) in
  let unmounted := step Reference.host loaded (Disconnect 1) in
  let changed := step Reference.host loaded
                   (SetAttribute 1 "url" "https://calendly.com/acme/other") in
  timers (global unmounted) = [{| delay := 500; owner := 1; overlay := Some 2 |}] /\
  classes_of 2 unmounted = Some ["loading-overlay"] /\
  classes_of 2 (step Reference.host unmounted (TimerFires 0))
  = Some ["loading-overlay"; "hidden"] /\
  timers (global changed) = [{| delay := 500; owner := 1; overlay := Some 2 |}] /\
  classes_of 2 changed = Some ["loading-overlay"] /\
  classes_of 2 (step Reference.host changed (TimerFires 0))
  = Some ["loading-overlay"; "hidden"] /\
  classes_of_id "loading" (step Reference.host changed (TimerFires 0))
  = Some ["loading-overlay"].
Proof. vm_compute. repeat split. Qed.

(** * Further properties *)

(** ** Numbers and strings *)

Section Numbers.

Lemma SFcompare_antisym (a b : number) :
  SFcompare b a = CompOpp <$> SFcompare a b.
Proof.
  destruct a as [sa|sa| |sa ma ea], b as [sb|sb| |sb mb eb]; cbn;
    try reflexivity; try (destruct sa; reflexivity);
    try (destruct sb; reflexivity);
    try (destruct sa, sb; reflexivity).
  destruct sa, sb; cbn; try reflexivity;
    rewrite (Z.compare_antisym ea eb); destruct (ea ?= eb)%Z; cbn;
    try reflexivity;
    rewrite (Pos.compare_cont_antisym ma mb Eq); cbn;
    destruct (Pos.compare_cont Eq ma mb); reflexivity.
Qed.

Lemma lt_asym (a b : number) : lt a b = true -> lt b a = false.
Proof.
  unfold lt, SFltb. rewrite (SFcompare_antisym a b).
  destruct (SFcompare a b) as [[]|]; cbn; intros H;
    first [discriminate H | reflexivity].
Qed.

Lemma lt_irrefl (a : number) : lt a a = false.
Proof.
  destruct (lt a a) eqn:H; [|reflexivity].
  pose proof (lt_asym a a H). congruence.
Qed.

Lemma lt_NaN_l (a : number) : lt NaN a = false.
Proof. reflexivity. Qed.

(** [Math.max] returns one of its arguments unless it returns NaN. *)
Lemma Math_max_cases (a b : number) :
  Math_max a b = a \/ Math_max a b = b \/ Math_max a b = NaN.
Proof.
  unfold Math_max.
  destruct a, b; try (right; right; reflexivity);
    match goal with |- context [if ?x then _ else _] => destruct x end; auto.
Qed.

Lemma NaN_or_not (a : number) : a = NaN \/ a <> NaN.
Proof. destruct a; auto; right; discriminate. Qed.

Lemma Math_max_NaN_l (b : number) : Math_max NaN b = NaN.
Proof. reflexivity. Qed.

Lemma Math_max_NaN_r (a : number) : Math_max a NaN = NaN.
Proof. destruct a; reflexivity. Qed.

Lemma Math_max_numbers (a b : number) :
  a <> NaN -> b <> NaN ->
  Math_max a b = if lt a b || (is_pos_zero b && is_neg_zero a) then b else a.
Proof.
  intros Ha Hb. destruct a, b; try reflexivity; exfalso; auto.
Qed.

(** The result of [Math.max] is below neither argument. *)
Lemma Math_max_not_below (a b : number) :
  lt (Math_max a b) a = false /\ lt (Math_max a b) b = false.
Proof.
  destruct (NaN_or_not a) as [->|Ha]; [split; reflexivity|].
  destruct (NaN_or_not b) as [->|Hb];
    [rewrite Math_max_NaN_r; split; reflexivity|].
  rewrite (Math_max_numbers a b Ha Hb).
  destruct (lt a b) eqn:Hlt; cbn [orb].
  - split; [apply lt_asym, Hlt|apply lt_irrefl].
  - destruct (is_pos_zero b && is_neg_zero a) eqn:Hz.
    + split; [|apply lt_irrefl].
      destruct a as [[]| | |], b as [[]| | |]; try discriminate; reflexivity.
    + split; [apply lt_irrefl|exact Hlt].
Qed.

Lemma prefix_spec (needle hay : string) :
  String.prefix needle hay = true <-> exists post, hay = needle ++ post.
Proof.
  revert hay. induction needle as [|a needle IH]; intros hay.
  - split; [intros _; exists hay; reflexivity|].
    intros _. destruct hay; reflexivity.
  - destruct hay as [|b hay]; cbn.
    + split; [discriminate|intros (post & H); discriminate H].
    + destruct (ascii_dec a b) as [->|Hne].
      * rewrite IH. split; intros (post & H); exists post.
        -- rewrite H. reflexivity.
        -- injection H as H. exact H.
      * split; [discriminate|]. intros (post & H). injection H as H1 H2.
        congruence.
Qed.

(** [includes] is the substring test. *)
Lemma includes_spec (needle hay : string) :
  includes needle hay = true <-> exists pre post, hay = pre ++ needle ++ post.
Proof.
  induction hay as [|b hay IH]; cbn [includes].
  - rewrite orb_false_r, prefix_spec. split.
    + intros (post & H). exists "", post. exact H.
    + intros (pre & post & H). exists post.
      destruct pre; [exact H|discriminate H].
  - rewrite orb_true_iff, prefix_spec, IH. split.
    + intros [(post & H)|(pre & post & H)].
      * exists "", post. exact H.
      * exists (String b pre), post. cbn. rewrite H. reflexivity.
    + intros (pre & post & H). destruct pre as [|c pre].
      * left. exists post. exact H.
      * right. injection H as _ H. exists pre, post. exact H.
Qed.

Lemma digits_Some (s : string) : forall x, digits s (Some x) <> None.
Proof.
  induction s as [|c s IH]; intros x; cbn; [discriminate|].
  destruct (digit c); [apply IH|discriminate].
Qed.

Lemma digits_None (s : string) :
  digits s None = None <->
  match s with
  | EmptyString => True
  | String c _ => digit c = None
  end.
Proof.
  destruct s as [|c s]; cbn; [tauto|].
  destruct (digit c) as [d|]; [|tauto].
  split; [intros H; exfalso; exact (digits_Some s _ H)|discriminate].
Qed.

(** Without a digit where the number should start, [parseInt] gives NaN. *)
Lemma parseInt10_not_numeric (s : string) :
  first_digit s = None -> parseInt10 s = NaN.
Proof.
  unfold first_digit, parseInt10, unsigned.
  set (t := trim_start s). clearbody t. intros H.
  assert (Hd : forall neg u,
            match u with EmptyString => None | String c _ => digit c end = None ->
            match digits u None with
            | None => NaN
            | Some 0%Z => S754_zero neg
            | Some z => of_Z (if neg then (- z)%Z else z)
            end = NaN).
  { intros neg u Hu. assert (Hn : digits u None = None).
    { apply digits_None. destruct u; [exact I|exact Hu]. }
    rewrite Hn. reflexivity. }
  destruct t as [|c rest]; [apply Hd; reflexivity|].
  destruct (Ascii.eqb_spec c "-"%char) as [->|Hm]; [apply Hd, H|].
  destruct (Ascii.eqb_spec c "+"%char) as [->|Hp]; [apply Hd, H|].
  assert (Hs : (let '(neg, s0) :=
                  match String c rest with
                  | String "-"%char rest0 => (true, rest0)
                  | String "+"%char rest0 => (false, rest0)
                  | _ => (false, String c rest)
                  end in
                match digits s0 None with
                | None => NaN
                | Some 0%Z => S754_zero neg
                | Some z => of_Z (if neg then (- z)%Z else z)
                end)
               = match digits (String c rest) None with
                 | None => NaN
                 | Some 0%Z => S754_zero false
                 | Some z => of_Z z
                 end).
  { destruct c as [[] [] [] [] [] [] [] []]; try reflexivity; congruence. }
  rewrite Hs.
  assert (Hu : match String c rest with
               | String "-"%char r | String "+"%char r => r
               | _ => String c rest
               end = String c rest).
  { destruct c as [[] [] [] [] [] [] [] []]; try reflexivity; congruence. }
  rewrite Hu in H. exact (Hd false (String c rest) H).
Qed.

End Numbers.

(** ** More on [updateHeight] *)

Section HeightMore.

Variable P : Platform.

Lemma updateHeight_env height c : env (snd (updateHeight P height c)) = env c.
Proof.
  unfold updateHeight. destruct (negb (ToBoolean height)); [reflexivity|].
  destruct (Dom.getElementById "container" _); [|reflexivity].
  destruct (Dom.getElementById (iframeId _) _); [|reflexivity].
  unfold bind, lift. destruct (ToNumber _ height); reflexivity.
Qed.

Lemma updateHeight_config height c :
  attributes (this (snd (updateHeight P height c))) = attributes (this c) /\
  iframeSuffix (this (snd (updateHeight P height c))) = iframeSuffix (this c).
Proof.
  unfold updateHeight. destruct (negb (ToBoolean height)); [split; reflexivity|].
  destruct (Dom.getElementById "container" _); [|split; reflexivity].
  destruct (Dom.getElementById (iframeId _) _); [|split; reflexivity].
  unfold bind, lift. destruct (ToNumber _ height); split; reflexivity.
Qed.

Lemma is_node_preserved r (f : Dom.Elem -> Dom.Elem) e :
  Dom.nid (f e) = Dom.nid e -> Dom.is_node r (f e) = Dom.is_node r e.
Proof. unfold Dom.is_node. intros ->. reflexivity. Qed.

(** Writing the same value again through the same two references changes
    nothing more. *)
Lemma touched_pair_idem rc rf (f : Dom.Elem -> Dom.Elem) e :
  (forall x, Dom.nid (f x) = Dom.nid x) -> (forall x, f (f x) = f x) ->
  touched rf f (touched rc f (touched rf f (touched rc f e)))
  = touched rf f (touched rc f e).
Proof.
  intros Hnid Hff. unfold touched.
  destruct (Dom.is_node rc e) eqn:Hc, (Dom.is_node rf e) eqn:Hf;
    rewrite ?is_node_preserved by apply Hnid;
    rewrite ?Hc, ?Hf, ?is_node_preserved by apply Hnid;
    rewrite ?Hc, ?Hf, ?Hff; try reflexivity;
    rewrite ?is_node_preserved by apply Hnid;
    rewrite ?Hc, ?Hf, ?Hff; reflexivity.
Qed.

Lemma update_pair_idem rc rf (f : Dom.Elem -> Dom.Elem) :
  (forall x, Dom.nid (f x) = Dom.nid x) -> (forall x, f (f x) = f x) ->
  forall n,
    Dom.update rf f (Dom.update rc f (Dom.update rf f (Dom.update rc f n)))
    = Dom.update rf f (Dom.update rc f n).
Proof.
  intros Hnid Hff.
  induction n as [e kids IH| |] using Node_forall_ind; [|reflexivity..].
  cbn [Dom.update]. f_equal.
  - apply (touched_pair_idem rc rf f e Hnid Hff).
  - induction IH as [|k rest Hk _ IHrest]; [reflexivity|].
    cbn [List.map]. f_equal; [exact Hk|exact IHrest].
Qed.

Lemma update_all_pair_idem rc rf (f : Dom.Elem -> Dom.Elem) forest :
  (forall x, Dom.nid (f x) = Dom.nid x) -> (forall x, f (f x) = f x) ->
  Dom.update_all rf f (Dom.update_all rc f
    (Dom.update_all rf f (Dom.update_all rc f forest)))
  = Dom.update_all rf f (Dom.update_all rc f forest).
Proof.
  intros Hnid Hff. unfold Dom.update_all.
  induction forest as [|k rest IH]; [reflexivity|].
  cbn [List.map]. f_equal; [apply update_pair_idem; assumption|exact IH].
Qed.

Lemma heights_written_twice co fr co' fr' n c :
  Dom.nid co' = Dom.nid co -> Dom.nid fr' = Dom.nid fr ->
  heights_written co' fr' n (heights_written co fr n c) = heights_written co fr n c.
Proof.
  intros Hc Hf. unfold heights_written, set_this. cbn [this env attributes
    iframeSuffix shadowRoot replaced]. rewrite Hc, Hf.
  rewrite !update_all_pair_idem by reflexivity. reflexivity.
Qed.

Lemma getElementById_heights_written i co fr n c :
  Dom.getElementById i (shadowRoot (this (heights_written co fr n c)))
  = touched (Dom.nid fr) (Dom.set_height n)
      <$> (touched (Dom.nid co) (Dom.set_height n)
             <$> Dom.getElementById i (shadowRoot (this c))).
Proof.
  cbn [heights_written set_this this shadowRoot].
  rewrite !getElementById_update by reflexivity. reflexivity.
Qed.

Lemma nid_touched_twice rc rf n e :
  Dom.nid (touched rf (Dom.set_height n) (touched rc (Dom.set_height n) e))
  = Dom.nid e.
Proof. rewrite !nid_touched_set_height. reflexivity. Qed.

Lemma updateHeight_falsy height c :
  ToBoolean height = false -> updateHeight P height c = (Normal tt, c).
Proof. intros Ht. unfold updateHeight. rewrite Ht. reflexivity. Qed.

Lemma updateHeight_not_found height c :
  Dom.getElementById "container" (shadowRoot (this c)) = None \/
  Dom.getElementById (iframeId (this c)) (shadowRoot (this c)) = None ->
  updateHeight P height c = (Normal tt, c).
Proof.
  intros Hnone. unfold updateHeight.
  destruct (ToBoolean height); [|reflexivity]. cbn [negb].
  destruct Hnone as [-> | ->]; [reflexivity|].
  destruct (Dom.getElementById "container" _); reflexivity.
Qed.

(** A second call with the same candidate finds the state of the first. *)
Lemma updateHeight_twice height c :
  updateHeight P height (snd (updateHeight P height c)) = updateHeight P height c.
Proof.
  destruct (ToBoolean height) eqn:Ht;
    [|rewrite !updateHeight_falsy by exact Ht; reflexivity].
  destruct (Dom.getElementById "container" (shadowRoot (this c))) as [co|] eqn:Hc.
  2: { rewrite !(updateHeight_not_found height c) by (left; exact Hc).
       cbn [snd]. apply updateHeight_not_found. left. exact Hc. }
  destruct (Dom.getElementById (iframeId (this c)) (shadowRoot (this c)))
    as [fr|] eqn:Hf.
  2: { rewrite !(updateHeight_not_found height c) by (right; exact Hf).
       cbn [snd]. apply updateHeight_not_found. right. exact Hf. }
  rewrite (updateHeight_found P height c co fr Ht Hc Hf).
  destruct (ToNumber (StringToNumber P) height) as [h|e] eqn:Hn; cbn [snd].
  - set (m := Math_max h (minHeight (this c))).
    erewrite (updateHeight_found P height (heights_written co fr m c)); [| exact Ht | |].
    + rewrite Hn. cbn [heights_written set_this this attributes]. fold m.
      f_equal. apply heights_written_twice; apply nid_touched_twice.
    + rewrite getElementById_heights_written, Hc. reflexivity.
    + rewrite getElementById_heights_written. cbn [heights_written set_this this
        iframeSuffix]. unfold iframeId in Hf |- *. cbn [iframeSuffix].
      rewrite Hf. reflexivity.
  - rewrite (updateHeight_found P height c co fr Ht Hc Hf), Hn. reflexivity.
Qed.

End HeightMore.

(** X1: every number that passes the guard of [updateHeight], negative and
    infinite ones included, is written to both nodes as a height that is
    below neither the candidate nor the minimum height, and that is the
    candidate, the minimum height or NaN. *)
Theorem updateHeight_any_number (P : Platform) (n : number) (c : Ctx)
    (container iframe : Dom.Elem) :
  ToBoolean (VNum n) = true ->
  Dom.getElementById "container" (shadowRoot (this c)) = Some container ->
  Dom.getElementById (iframeId (this c)) (shadowRoot (this c)) = Some iframe ->
  exists c' h,
    updateHeight P (VNum n) c = (Normal tt, c') /\
    Dom.height <$> Dom.getElementById "container" (shadowRoot (this c'))
    = Some (Some h) /\
    Dom.height <$> Dom.getElementById (iframeId (this c)) (shadowRoot (this c'))
    = Some (Some h) /\
    lt h (minHeight (this c)) = false /\
    lt h n = false /\
    (h = n \/ h = minHeight (this c) \/ h = NaN).
Proof.
  intros Ht Hc Hf.
  destruct (updateHeight_number P n c container iframe Ht Hc Hf)
    as (c' & Hrun & _ & _ & Hsuffix & Hch & Hfh).
  exists c', (Math_max n (minHeight (this c))).
  split; [exact Hrun|]. split; [exact Hch|].
  split; [unfold iframeId in *; rewrite Hsuffix in Hfh; exact Hfh|].
  destruct (Math_max_not_below n (minHeight (this c))) as (Hn & Hm).
  split; [exact Hm|]. split; [exact Hn|]. apply Math_max_cases.
Qed.

Lemma updateHeight_any_number_witness :
  ToBoolean (VNum (of_Z (-5))) = true /\
  exists c' h,
    updateHeight Reference.host (VNum (of_Z (-5))) (mounted_ctx sample_attributes)
    = (Normal tt, c') /\
    Dom.height <$> Dom.getElementById "container" (shadowRoot (this c'))
    = Some (Some h) /\
    lt h (of_Z 700) = false /\ lt h (of_Z (-5)) = false.
Proof.
  split; [reflexivity|].
  destruct (updateHeight_any_number Reference.host (of_Z (-5))
              (mounted_ctx sample_attributes) _ _ eq_refl eq_refl eq_refl)
    as (c' & h & Hrun & Hc & _ & Hmin & Hn & _).
  exists c', h. split; [exact Hrun|]. split; [exact Hc|].
  split; [exact Hmin|exact Hn].
Defined.

(** X2: when the [height] attribute has no digit where a number should
    start (after leading white space and an optional sign), the minimum
    height is NaN and every number that passes the guard of [updateHeight]
    is written as NaN. *)
Theorem updateHeight_non_numeric_minimum (P : Platform) (s : string)
    (n : number) (c : Ctx) (container iframe : Dom.Elem) :
  getAttribute (this c) "height" = Some s -> s <> "" ->
  first_digit s = None ->
  ToBoolean (VNum n) = true ->
  Dom.getElementById "container" (shadowRoot (this c)) = Some container ->
  Dom.getElementById (iframeId (this c)) (shadowRoot (this c)) = Some iframe ->
  minHeight (this c) = NaN /\
  exists c',
    updateHeight P (VNum n) c = (Normal tt, c') /\
    Dom.height <$> Dom.getElementById "container" (shadowRoot (this c'))
    = Some (Some NaN) /\
    Dom.height <$> Dom.getElementById (iframeId (this c)) (shadowRoot (this c'))
    = Some (Some NaN).
Proof.
  intros Hattr Hne Hdigit Ht Hc Hf.
  assert (Hmin : minHeight (this c) = NaN).
  { unfold minHeight. rewrite Hattr. cbn [given].
    apply String.eqb_neq in Hne. rewrite Hne. cbn [default from_option].
    apply parseInt10_not_numeric, Hdigit. }
  split; [exact Hmin|].
  destruct (updateHeight_number P n c container iframe Ht Hc Hf)
    as (c' & Hrun & _ & _ & Hsuffix & Hch & Hfh).
  rewrite Hmin, Math_max_NaN_r in Hch, Hfh.
  exists c'. split; [exact Hrun|]. split; [exact Hch|].
  unfold iframeId in *. rewrite Hsuffix in Hfh. exact Hfh.
Qed.

Lemma updateHeight_non_numeric_minimum_witness :
  let c := mounted_ctx (<["height" := "tall"]> sample_attributes) in
  getAttribute (this c) "height" = Some "tall" /\
  first_digit "tall" = None /\
  minHeight (this c) = NaN /\
  exists c',
    updateHeight Reference.host (VNum (of_Z 900)) c = (Normal tt, c') /\
    Dom.height <$> Dom.getElementById "container" (shadowRoot (this c'))
    = Some (Some NaN).
Proof.
  intros c. split; [reflexivity|]. split; [reflexivity|].
  assert (Hne : "tall" <> "") by discriminate.
  destruct (updateHeight_non_numeric_minimum Reference.host "tall" (of_Z 900) c
              _ _ eq_refl Hne eq_refl eq_refl eq_refl eq_refl)
    as (Hmin & c' & Hrun & Hc & _).
  split; [exact Hmin|]. exists c'. split; [exact Hrun|exact Hc].
Defined.

(** X3: [updateHeight] is idempotent: a second call with the same candidate
    returns as the first did and leaves the state that the first call left,
    whatever the candidate and the structure. *)
Theorem updateHeight_idempotent (P : Platform) (height : value) (c : Ctx) :
  updateHeight P height (snd (updateHeight P height c)) = updateHeight P height c.
Proof. apply updateHeight_twice. Qed.

(** ** More on the message handler *)

Section MessagesMore.

Variable P : Platform.

Lemma is_str_true v lit : is_str v lit = true -> v = VStr lit.
Proof.
  destruct v; try discriminate. cbn. intros H.
  apply String.eqb_eq in H. congruence.
Qed.

Lemma is_str_false v lit : v <> VStr lit -> is_str v lit = false.
Proof.
  intros Hne. destruct (is_str v lit) eqn:H; [|reflexivity].
  apply is_str_true in H. contradiction.
Qed.

Lemma truthy_event_data (d : value) (name : string) :
  get d "event" = VStr name -> ToBoolean d = true.
Proof. destruct d; try discriminate. reflexivity. Qed.

(** A height report that passes the origin test is handed to
    [updateHeight], and nothing else is done. *)
Lemma handleMessage_page_height self event c :
  includes "calendly.com" (origin event) = true ->
  get (data event) "event" = VStr "calendly.page_height" ->
  handleMessage P self event c
  = (fst (updateHeight P (get_opt (get (data event) "payload") "height") c),
     snd (updateHeight P (get_opt (get (data event) "payload") "height") c)).
Proof.
  intros Horigin Hevent. unfold handleMessage.
  rewrite Horigin, Hevent, (truthy_event_data _ _ Hevent).
  cbn [negb orb ToBoolean String.eqb Ascii.eqb Bool.eqb is_str when].
  unfold bind.
  destruct (updateHeight P _ c) as [[[]|e] c1]; reflexivity.
Qed.

(** A callback that returns normally without changing its state leaves the
    page as it was. *)
Lemma call_noop i (m : M unit) w :
  (forall c, m c = (Normal tt, c)) -> call i m w = w.
Proof.
  intros Hm. destruct (instances w !! i) as [wd|] eqn:Hi;
    [|apply call_missing, Hi].
  rewrite (call_present i m w wd Hi), Hm. cbn [fst snd this env].
  rewrite (insert_id _ _ _ Hi). destruct w; reflexivity.
Qed.

Lemma deliver_noop event w :
  (forall k c, handleMessage P k event c = (Normal tt, c)) ->
  deliver P event w = w.
Proof.
  intros Hm. unfold deliver.
  generalize (message_listeners (global w)) as l.
  induction l as [|k rest IH]; [reflexivity|].
  cbn [fold_left]. rewrite (call_noop k _ w (Hm k)). exact IH.
Qed.

Lemma filter_not_in (i : nat) (l : list nat) :
  ~ In i l -> List.filter (fun k => negb (Nat.eqb i k)) l = l.
Proof.
  induction l as [|k rest IH]; intros Hnot; [reflexivity|].
  cbn [List.filter].
  destruct (Nat.eqb_spec i k) as [->|Hne];
    [exfalso; apply Hnot; left; reflexivity|].
  cbn [negb]. f_equal. apply IH. intros Hin. apply Hnot. right. exact Hin.
Qed.

Lemma filter_added (i : nat) (l : list nat) :
  ~ In i l -> List.filter (fun k => negb (Nat.eqb i k)) (l ++ [i]) = l.
Proof.
  intros Hnot. rewrite List.filter_app, (filter_not_in i l Hnot).
  cbn [List.filter]. rewrite Nat.eqb_refl. apply app_nil_r.
Qed.

End MessagesMore.

(** X4: a message that passes the origin test, whose [event] is
    [calendly.page_height] and whose [payload.height] is a number that
    passes the guard, makes the handler write
    [Math.max(height, minHeight)] to the container and the frame; no event
    is dispatched and nothing of the window changes. *)
Theorem page_height_message_applies (P : Platform) (self : nat)
    (event : MessageEvent) (n : number) (c : Ctx) (container iframe : Dom.Elem) :
  includes "calendly.com" (origin event) = true ->
  get (data event) "event" = VStr "calendly.page_height" ->
  get_opt (get (data event) "payload") "height" = VNum n ->
  ToBoolean (VNum n) = true ->
  Dom.getElementById "container" (shadowRoot (this c)) = Some container ->
  Dom.getElementById (iframeId (this c)) (shadowRoot (this c)) = Some iframe ->
  exists c',
    handleMessage P self event c = (Normal tt, c') /\
    env c' = env c /\
    Dom.height <$> Dom.getElementById "container" (shadowRoot (this c'))
    = Some (Some (Math_max n (minHeight (this c)))) /\
    Dom.height <$> Dom.getElementById (iframeId (this c)) (shadowRoot (this c'))
    = Some (Some (Math_max n (minHeight (this c)))).
Proof.
  intros Horigin Hevent Hheight Ht Hc Hf.
  destruct (updateHeight_number P n c container iframe Ht Hc Hf)
    as (c' & Hrun & Henv & _ & Hsuffix & Hch & Hfh).
  exists c'. rewrite (handleMessage_page_height P self event c Horigin Hevent).
  rewrite Hheight, Hrun. split; [reflexivity|]. split; [exact Henv|].
  split; [exact Hch|].
  unfold iframeId in *. rewrite Hsuffix in Hfh. exact Hfh.
Qed.

Lemma page_height_message_applies_witness :
  let event := page_height "https://calendly.com" 1200 in
  includes "calendly.com" (origin event) = true /\
  get_opt (get (data event) "payload") "height" = VNum (of_Z 1200) /\
  exists c',
    handleMessage Reference.host 1 event (mounted_ctx sample_attributes)
    = (Normal tt, c') /\
    Dom.height <$> Dom.getElementById "container" (shadowRoot (this c'))
    = Some (Some (of_Z 1200)).
Proof.
  intros event. split; [reflexivity|]. split; [reflexivity|].
  destruct (page_height_message_applies Reference.host 1 event (of_Z 1200)
              (mounted_ctx sample_attributes) _ _
              eq_refl eq_refl eq_refl eq_refl eq_refl eq_refl)
    as (c' & Hrun & _ & Hc & _).
  exists c'. split; [exact Hrun|exact Hc].
Defined.

(** X5: whatever the message, the handler of an instance leaves the
    listeners, the timers and the attributes of the instance alone, and
    dispatches at most one event: either none, or exactly one event on its
    own instance, of type [scheduled], [datetime-selected] or [viewed], that
    bubbles, is composed and carries the message's payload ([null] when the
    message has none), the structure being then untouched. *)
Theorem handler_dispatches_at_most_one (P : Platform) (self : nat)
    (event : MessageEvent) (c : Ctx) :
  let c' := snd (handleMessage P self event c) in
  next_node (env c') = next_node (env c) /\
  message_listeners (env c') = message_listeners (env c) /\
  timers (env c') = timers (env c) /\
  attributes (this c') = attributes (this c) /\
  (dispatched (env c') = dispatched (env c) \/
   exists name,
     In name ["scheduled"; "datetime-selected"; "viewed"] /\
     this c' = this c /\
     dispatched (env c')
     = (dispatched (env c) ++
          [(self, {| type := name;
                     detail := init_detail (get (data event) "payload");
                     bubbles := true; composed := true |})])%list).
Proof.
  cbn zeta.
  match goal with
  | |- ?G =>
      assert (Hnoop : handleMessage P self event c = (Normal tt, c) -> G);
      [|assert (Hforward : forall inbound outbound,
          includes "calendly.com" (origin event) = true ->
          In (inbound, outbound) forwarded_events ->
          In outbound ["scheduled"; "datetime-selected"; "viewed"] ->
          is_str (get (data event) "event") inbound = true -> G)]
  end.
  { intros ->. repeat split. left. reflexivity. }
  { intros inbound outbound Horigin Hin Hout Hstr.
    apply is_str_true in Hstr.
    rewrite (handleMessage_forwarded P self event inbound outbound c Horigin Hin Hstr).
    repeat split. right. exists outbound. repeat split. exact Hout. }
  destruct (includes "calendly.com" (origin event)) eqn:Horigin;
    [|apply Hnoop, handleMessage_untrusted, Horigin].
  destruct (is_str (get (data event) "event") "calendly.page_height") eqn:H1.
  { apply is_str_true in H1.
    rewrite (handleMessage_page_height P self event c Horigin H1). cbn [snd].
    rewrite updateHeight_env.
    destruct (updateHeight_config P (get_opt (get (data event) "payload") "height") c)
      as (Hattr & _).
    repeat split; [exact Hattr|]. left. reflexivity. }
  destruct (is_str (get (data event) "event") "calendly.event_scheduled") eqn:H2;
    [apply (Hforward "calendly.event_scheduled" "scheduled" eq_refl);
       [in_list|in_list|exact H2]|].
  destruct (is_str (get (data event) "event") "calendly.date_and_time_selected")
    eqn:H3;
    [apply (Hforward "calendly.date_and_time_selected" "datetime-selected" eq_refl);
       [in_list|in_list|exact H3]|].
  destruct (is_str (get (data event) "event") "calendly.event_type_viewed") eqn:H4;
    [apply (Hforward "calendly.event_type_viewed" "viewed" eq_refl);
       [in_list|in_list|exact H4]|].
  apply Hnoop, handleMessage_unrecognized.
  intros name [<-|[<-|[<-|[<-|[]]]]]; assumption.
Qed.

(** X6: a message is ignored by every instance, and the page is left
    exactly as it was, when its origin does not contain the text
    [calendly.com], when its data is falsy, when the [event] of its data is
    falsy, or when that [event] is none of the four event names. *)
Theorem ignored_message_changes_nothing (P : Platform) (event : MessageEvent)
    (w : World) :
  (forall pre post, origin event <> pre ++ "calendly.com" ++ post) \/
  ToBoolean (data event) = false \/
  ToBoolean (get (data event) "event") = false \/
  (forall name, In name recognized_events ->
     get (data event) "event" <> VStr name) ->
  step P w (PostMessage event) = w.
Proof.
  intros H. cbn [step]. apply deliver_noop. intros k c.
  destruct H as [H|[H|[H|H]]].
  - apply handleMessage_untrusted.
    destruct (includes "calendly.com" (origin event)) eqn:Hin; [|reflexivity].
    apply includes_spec in Hin. destruct Hin as (pre & post & Heq).
    exfalso. exact (H pre post Heq).
  - apply handleMessage_no_event. left. exact H.
  - apply handleMessage_no_event. right. exact H.
  - apply handleMessage_unrecognized. intros name Hname.
    apply is_str_false, H, Hname.
Qed.

Lemma ignored_message_changes_nothing_witness :
  let event := {| origin := "https://calendly.com";
                  data := VObj [("event", VStr "calendly.profile_page_viewed")] |} in
  (forall name, In name recognized_events ->
     get (data event) "event" <> VStr name) /\
  step Reference.host (mounted sample_attributes) (PostMessage event)
  = mounted sample_attributes.
Proof.
  intros event.
  assert (H : forall name, In name recognized_events ->
                get (data event) "event" <> VStr name).
  { intros name [<-|[<-|[<-|[<-|[]]]]]; discriminate. }
  split; [exact H|].
  apply (ignored_message_changes_nothing Reference.host event
           (mounted sample_attributes)).
  right. right. right. exact H.
Defined.

(** X7: the handler of an instance is never subscribed twice: if no handler
    occurs twice among the listeners of the window, then none does after any
    sequence of tasks, mounting an instance again included. *)
Theorem no_double_subscription (P : Platform) (tasks : list Task) (w : World) :
  NoDup (message_listeners (global w)) ->
  NoDup (message_listeners (global (run P tasks w))).
Proof. apply run_listeners_NoDup. Qed.

Lemma no_double_subscription_witness :
  NoDup (message_listeners (global empty_world)) /\
  message_listeners
    (global (run Reference.host
               [Create 1 "k3x9" sample_attributes; Connect 1; Connect 1]
               empty_world)) = [1] /\
  NoDup (message_listeners
           (global (run Reference.host
                      [Create 1 "k3x9" sample_attributes; Connect 1; Connect 1]
                      empty_world))).
Proof.
  assert (H : NoDup (message_listeners (global empty_world))) by constructor.
  split; [exact H|]. split; [reflexivity|].
  exact (no_double_subscription Reference.host
           [Create 1 "k3x9" sample_attributes; Connect 1; Connect 1]
           empty_world H).
Defined.

(** X8: mounting an instance and unmounting it again leaves the listeners
    of the window as they were before, whether or not [render] threw. *)
Theorem mount_unmount_restores_listeners (P : Platform) (w : World) (i : nat) :
  ~ In i (message_listeners (global w)) ->
  message_listeners (global (run P [Connect i; Disconnect i] w))
  = message_listeners (global w).
Proof.
  intros Hnot. unfold run. cbn [fold_left step].
  destruct (instances w !! i) as [wd|] eqn:Hi.
  2: { rewrite (call_missing i _ w Hi), (call_missing i _ w Hi). reflexivity. }
  rewrite (call_present i (connectedCallback P i) w wd Hi).
  set (w1 := {| instances := _; global := _; uncaught := _ |}).
  assert (Hi1 : instances w1 !! i
                = Some (this (snd (connectedCallback P i
                                     {| this := wd; env := global w |}))))
    by apply lookup_insert_eq.
  rewrite (call_present i _ w1 _ Hi1). cbn [global w1 disconnectedCallback
    removeEventListener modify set_env snd env message_listeners].
  unfold connectedCallback, bind.
  pose proof (render_listeners P {| this := wd; env := global w |}) as Hr.
  cbn [env] in Hr.
  destruct (render P _) as [[[]|e] c1]; cbn [snd] in *.
  - cbn [addEventListener modify set_env snd env message_listeners]. rewrite Hr.
    destruct (existsb (Nat.eqb i) (message_listeners (global w)));
      [apply filter_not_in, Hnot|apply filter_added, Hnot].
  - rewrite Hr. apply filter_not_in, Hnot.
Qed.

Lemma mount_unmount_restores_listeners_witness :
  ~ In 2 (message_listeners (global (mounted sample_attributes))) /\
  message_listeners
    (global (run Reference.host [Connect 2; Disconnect 2]
               (step Reference.host (mounted sample_attributes)
                  (Create 2 "p0q1" sample_attributes))))
  = [1].
Proof.
  assert (H : ~ In 2 (message_listeners (global (mounted sample_attributes)))).
  { intros [Heq|[]]. discriminate Heq. }
  split; [exact H|].
  exact (mount_unmount_restores_listeners Reference.host
           (step Reference.host (mounted sample_attributes)
              (Create 2 "p0q1" sample_attributes)) 2 H).
Defined.

(** ** More on [render] and the lifecycle callbacks *)

Section RenderMore.

Variable P : Platform.



Lemma for_each_setTimeout self (l : list (option nat)) c :
  for_each (setTimeout self) l c
  = (Normal tt,
     set_env (fun e =>
       {| next_node := next_node e;
          message_listeners := message_listeners e;
          timers := timers e ++
            List.map (fun o => {| delay := 500; owner := self; overlay := o |}) l;
          dispatched := dispatched e |}) c).
Proof.
  revert c. induction l as [|o rest IH]; intros [wd e].
  - cbn [for_each List.map]. unfold ret, set_env. cbn [this env].
    rewrite (app_nil_r (timers e)). destruct e; reflexivity.
  - cbn [for_each]. unfold bind. cbn [setTimeout modify set_env this env].
    rewrite IH. unfold set_env. cbn [this env next_node message_listeners timers
      dispatched List.map].
    rewrite <- app_assoc. reflexivity.
Qed.

End RenderMore.



(** X10: mounting an instance without a [url] attribute, or with an empty
    one, returns normally with the handler subscribed; the shadow root
    then holds the structure with the message, in which there is no frame
    and no element with an id at all. *)
Theorem mount_without_url (P : Platform) (self : nat) (c : Ctx) :
  given (getAttribute (this c) "url") = None ->
  exists c',
    connectedCallback P self c = (Normal tt, c') /\
    In self (message_listeners (env c')) /\
    timers (env c') = timers (env c) /\
    shadowRoot (this c') = error_view (minHeight (this c)) (next_node (env c)) /\
    Dom.find_first is_frame (shadowRoot (this c')) = None /\
    (forall i, Dom.getElementById i (shadowRoot (this c')) = None).
Proof.
  intros Hurl.
  destruct (connectedCallback_missing_url P self c Hurl)
    as (c' & Hrun & Hroot & Hin).
  exists c'. split; [exact Hrun|]. split; [exact Hin|].
  split.
  { destruct (render_missing_url P c Hurl) as (_ & c1 & Hr & _).
    pose proof (render_timers P c) as Ht. rewrite Hr in Ht. cbn [snd] in Ht.
    unfold connectedCallback, bind in Hrun. rewrite Hr in Hrun.
    injection Hrun as <-. exact Ht. }
  split; [exact Hroot|]. rewrite Hroot. split; [reflexivity|].
  intros i. reflexivity.
Qed.

Lemma mount_without_url_witness :
  given (getAttribute (new_widget "k3x9" (<["url" := ""]> ∅)) "url") = None /\
  exists c',
    connectedCallback Reference.host 1
      {| this := new_widget "k3x9" (<["url" := ""]> ∅);
         env := global empty_world |} = (Normal tt, c') /\
    In 1 (message_listeners (env c')) /\
    shadowRoot (this c') = error_view (of_Z 700) 0.
Proof.
  assert (Hurl : given (getAttribute (new_widget "k3x9" (<["url" := ""]> ∅)) "url")
                 = None) by reflexivity.
  split; [exact Hurl|].
  destruct (mount_without_url Reference.host 1
              {| this := new_widget "k3x9" (<["url" := ""]> ∅);
                 env := global empty_world |} Hurl)
    as (c' & Hrun & Hin & _ & Hroot & _).
  exists c'. split; [exact Hrun|]. split; [exact Hin|exact Hroot].
Defined.



Section LifecycleMore.

Variable P : Platform.

Lemma call_noop_at i (m : M unit) w wd :
  instances w !! i = Some wd ->
  m {| this := wd; env := global w |} = (Normal tt, {| this := wd; env := global w |}) ->
  call i m w = w.
Proof.
  intros Hi Hm. rewrite (call_present i m w wd Hi), Hm. cbn [fst snd this env].
  rewrite (insert_id _ _ _ Hi). destruct w; reflexivity.
Qed.

Lemma attributeChangedCallback_same name v c :
  attributeChangedCallback P name v v c = (Normal tt, c).
Proof.
  unfold attributeChangedCallback.
  rewrite (bool_decide_eq_true_2 (v = v) eq_refl). reflexivity.
Qed.

Lemma attributeChangedCallback_unrendered name old new c :
  shadowRoot (this c) = [] ->
  attributeChangedCallback P name old new c = (Normal tt, c).
Proof.
  intros Hroot. unfold attributeChangedCallback, has_innerHTML.
  rewrite Hroot, andb_false_r. reflexivity.
Qed.


Lemma with_attributes_same name v i w wd :
  instances w !! i = Some wd -> attributes wd !! name = Some v ->
  with_attributes <[name := v]> i w = w.
Proof.
  intros Hi Hv. unfold with_attributes.
  rewrite (alter_id _ (instances w) i).
  - destruct w; reflexivity.
  - intros x Hx. rewrite Hi in Hx. injection Hx as <-.
    rewrite (insert_id _ _ _ Hv). destruct wd; reflexivity.
Qed.

Lemma with_attributes_lookup f i w wd :
  instances w !! i = Some wd ->
  instances (with_attributes f i w) !! i
  = Some {| attributes := f (attributes wd); iframeSuffix := iframeSuffix wd;
            shadowRoot := shadowRoot wd; replaced := replaced wd |}.
Proof.
  intros Hi. unfold with_attributes. cbn [instances].
  rewrite lookup_alter_eq, Hi. reflexivity.
Qed.

End LifecycleMore.



(** X13: setting an attribute of an instance to the value it already has
    leaves the page exactly as it was; and on an instance that has not
    rendered yet, or for an attribute that is not observed, setting an
    attribute only records the value: nothing is rendered. *)
Theorem attribute_set_without_render (P : Platform) (w : World) (i : nat)
    (wd : Widget) (name v : string) :
  instances w !! i = Some wd ->
  (attributes wd !! name = Some v ->
   step P w (SetAttribute i name v) = w) /\
  (shadowRoot wd = [] \/ observed name = false ->
   step P w (SetAttribute i name v) = with_attributes <[name := v]> i w).
Proof.
  intros Hi. cbn [step]. unfold change_attribute. rewrite Hi. split.
  - intros Hv. rewrite (with_attributes_same name v i w wd Hi Hv), Hv.
    destruct (observed name); [|reflexivity].
    apply call_noop. intros c. apply attributeChangedCallback_same.
  - intros Hcase. destruct (observed name) eqn:Hobs; [|reflexivity].
    destruct Hcase as [Hroot|Hfalse]; [|discriminate Hfalse].
    eapply call_noop_at; [apply (with_attributes_lookup _ i w wd Hi)|].
    apply attributeChangedCallback_unrendered. exact Hroot.
Qed.

Lemma attribute_set_without_render_witness :
  instances (mounted sample_attributes) !! 1
  = Some (this (mounted_ctx sample_attributes)) /\
  attributes (this (mounted_ctx sample_attributes)) !! "primary-color"
  = Some "FF8122" /\
  step Reference.host (mounted sample_attributes)
    (SetAttribute 1 "primary-color" "FF8122")
  = mounted sample_attributes.
Proof.
  assert (Hi : instances (mounted sample_attributes) !! 1
               = Some (this (mounted_ctx sample_attributes))) by reflexivity.
  assert (Hv : attributes (this (mounted_ctx sample_attributes)) !! "primary-color"
               = Some "FF8122") by reflexivity.
  split; [exact Hi|]. split; [exact Hv|].
  exact (proj1 (attribute_set_without_render Reference.host
                  (mounted sample_attributes) 1 _ "primary-color" "FF8122" Hi) Hv).
Defined.

(** X14: a settle timer that captured a node object created before a
    [render] does not touch the structure which that [render] built: when it
    fires, the shadow root is left as it is. *)
Theorem stale_timer_spares_new_structure (P : Platform) (c c1 : Ctx) (r : nat) :
  r < next_node (env c) ->
  render P c = (Normal tt, c1) ->
  shadowRoot (this (snd (settle (Some r) c1))) = shadowRoot (this c1).
Proof.
  intros Hr Hrun. unfold render, bind, lift in Hrun.
  destruct (calendlyUrl P (this c)) as [url|e]; [|discriminate Hrun].
  destruct (String.eqb url "").
  - injection Hrun as <-.
    cbn [settle write set_innerHTML modify set_this snd this env shadowRoot].
    unfold Dom.update_all, error_view, Dom.is_node. cbn.
    decide_nodes. reflexivity.
  - cbn [set_innerHTML modify this env shadowRoot iframeSuffix] in Hrun.
    unfold iframeId in Hrun. cbn [iframeSuffix] in Hrun.
    rewrite getElementById_frame_view_iframe,
      getElementById_frame_view_loading in Hrun.
    injection Hrun as <-.
    cbn [settle write modify set_this snd this env shadowRoot].
    unfold Dom.update_all, frame_view, Dom.is_node. cbn.
    decide_nodes; reflexivity.
Qed.

Lemma stale_timer_spares_new_structure_witness :
  let loaded := snd (frame_loaded 1 4 (mounted_ctx sample_attributes)) in
  timers (env loaded) = [{| delay := 500; owner := 1; overlay := Some 2 |}] /\
  2 < next_node (env loaded) /\
  exists c1,
    render Reference.host loaded = (Normal tt, c1) /\
    shadowRoot (this (snd (settle (Some 2) c1))) = shadowRoot (this c1).
Proof.
  intros loaded. split; [reflexivity|].
  assert (Hn : next_node (env loaded) = 5) by reflexivity.
  assert (H : 2 < next_node (env loaded)) by (rewrite Hn; lia).
  split; [exact H|].
  exists (snd (render Reference.host loaded)).
  assert (Hrun : render Reference.host loaded
                 = (Normal tt, snd (render Reference.host loaded)))
    by reflexivity.
  split; [exact Hrun|].
  exact (stale_timer_spares_new_structure Reference.host loaded _ 2 H Hrun).
Defined.

(** ** What the callbacks leave alone *)

Section Configuration.

Variable P : Platform.

Lemma keeps_config_ret {A} (a : A) : keeps_config (ret a).
Proof. intros c. split; reflexivity. Qed.

Lemma keeps_config_bind {A B} (m : M A) (k : A -> M B) :
  keeps_config m -> (forall a, keeps_config (k a)) -> keeps_config (bind m k).
Proof.
  intros Hm Hk c. unfold bind. specialize (Hm c).
  destruct (m c) as [[a|e] c1]; cbn [snd] in *; [|exact Hm].
  destruct (Hk a c1) as (H1 & H2). destruct Hm as (H3 & H4).
  split; congruence.
Qed.

Lemma keeps_config_when b (m : M unit) : keeps_config m -> keeps_config (when b m).
Proof. intros Hm. destruct b; [exact Hm|apply keeps_config_ret]. Qed.

Lemma keeps_config_env (f : Window -> Window) : keeps_config (modify (set_env f)).
Proof. intros c. split; reflexivity. Qed.

Lemma keeps_config_write r f : keeps_config (write r f).
Proof. intros c. split; reflexivity. Qed.

Lemma keeps_config_render : keeps_config (render P).
Proof.
  intros c. unfold render, bind, lift.
  destruct (calendlyUrl P (this c)) as [url|e]; [|split; reflexivity].
  destruct (String.eqb url ""); [split; reflexivity|].
  cbn [set_innerHTML modify].
  destruct (Dom.getElementById (iframeId _) _); split; reflexivity.
Qed.

Lemma keeps_config_handleMessage self event :
  keeps_config (handleMessage P self event).
Proof.
  unfold handleMessage.
  destruct (negb (includes _ _)); [apply keeps_config_ret|].
  destruct (_ || _); [apply keeps_config_ret|].
  repeat (apply keeps_config_bind; [|intros _]);
    apply keeps_config_when;
    first [intros c; apply updateHeight_config | apply keeps_config_env].
Qed.

Lemma keeps_config_connectedCallback self : keeps_config (connectedCallback P self).
Proof.
  apply keeps_config_bind; [apply keeps_config_render|].
  intros _. apply keeps_config_env.
Qed.

Lemma keeps_config_frame_loaded self r : keeps_config (frame_loaded self r).
Proof.
  intros c. unfold frame_loaded.
  destruct (Dom.deref r _); [|split; reflexivity].
  rewrite for_each_setTimeout. split; reflexivity.
Qed.

Lemma keeps_config_settle o : keeps_config (settle o).
Proof. destruct o; intros c; split; reflexivity. Qed.

Lemma keeps_config_attributeChangedCallback name old new :
  keeps_config (attributeChangedCallback P name old new).
Proof.
  intros c. unfold attributeChangedCallback.
  destruct (_ && _); [apply keeps_config_render|split; reflexivity].
Qed.

(** A callback that keeps the configuration of its instance keeps the
    configuration of every instance of the page. *)
Lemma call_config i j (m : M unit) w :
  keeps_config m -> config_of j (call i m w) = config_of j w.
Proof.
  intros Hm. destruct (instances w !! i) as [wd|] eqn:Hi;
    [|rewrite (call_missing i m w Hi); reflexivity].
  rewrite (call_present i m w wd Hi). unfold config_of. cbn [instances].
  destruct (decide (i = j)) as [<-|Hne].
  - rewrite lookup_insert_eq, Hi. cbn [fmap option_fmap option_map].
    destruct (Hm {| this := wd; env := global w |}) as (H1 & H2).
    cbn [this] in *. rewrite H1, H2. reflexivity.
  - rewrite lookup_insert_ne by exact Hne. reflexivity.
Qed.

Lemma deliver_config event j w : config_of j (deliver P event w) = config_of j w.
Proof.
  unfold deliver. generalize (message_listeners (global w)) as l. intros l.
  revert w. induction l as [|k rest IH]; intros w; [reflexivity|].
  cbn [fold_left]. rewrite IH. apply call_config, keeps_config_handleMessage.
Qed.

End Configuration.

(** X15: no callback of the component changes the configuration of an
    instance: mounting, unmounting, a message, the [load] event of a frame
    and a timer leave the attributes and the frame id of every instance as
    they are; and setting an attribute changes that attribute only, whether
    or not the instance renders again. *)
Theorem callbacks_keep_configuration (P : Platform) (w : World) (j : nat) :
  (forall i, config_of j (step P w (Connect i)) = config_of j w) /\
  (forall i, config_of j (step P w (Disconnect i)) = config_of j w) /\
  (forall event, config_of j (step P w (PostMessage event)) = config_of j w) /\
  (forall i r, config_of j (step P w (FrameLoaded i r)) = config_of j w) /\
  (forall k, config_of j (step P w (TimerFires k)) = config_of j w) /\
  (forall wd name v,
     instances w !! j = Some wd ->
     config_of j (step P w (SetAttribute j name v))
     = Some (<[name := v]> (attributes wd), iframeSuffix wd)).
Proof.
  split; [|split; [|split; [|split; [|split]]]].
  - intros i. apply call_config, keeps_config_connectedCallback.
  - intros i. apply call_config, keeps_config_env.
  - intros event. apply deliver_config.
  - intros i r. apply call_config, keeps_config_frame_loaded.
  - intros k. cbn [step]. destruct (timers (global w) !! k) as [t|]; [|reflexivity].
    rewrite call_config by apply keeps_config_settle. reflexivity.
  - intros wd name v Hj. cbn [step]. unfold change_attribute. rewrite Hj.
    assert (Hw : config_of j (with_attributes <[name := v]> j w)
                 = Some (<[name := v]> (attributes wd), iframeSuffix wd)).
    { unfold config_of. rewrite (with_attributes_lookup _ j w wd Hj). reflexivity. }
    destruct (observed name); [|exact Hw].
    rewrite call_config by apply keeps_config_attributeChangedCallback. exact Hw.
Qed.

Lemma callbacks_keep_configuration_witness :
  instances (mounted sample_attributes) !! 1
  = Some (this (mounted_ctx sample_attributes)) /\
  config_of 1 (step Reference.host (mounted sample_attributes)
                 (SetAttribute 1 "url" "https://calendly.com/acme/other"))
  = Some (<["url" := "https://calendly.com/acme/other"]> sample_attributes, "k3x9").
Proof.
  assert (Hi : instances (mounted sample_attributes) !! 1
               = Some (this (mounted_ctx sample_attributes))) by reflexivity.
  split; [exact Hi|].
  destruct (callbacks_keep_configuration Reference.host
              (mounted sample_attributes) 1) as (_ & _ & _ & _ & _ & Hset).
  exact (Hset _ "url" "https://calendly.com/acme/other" Hi).
Defined.

(** ** Resolving a resolved URL *)

Section FixedPoint.

Variable P : Platform.

Lemma without_absent k q : Url.getAll k q = [] -> Url.without k q = q.
Proof.
  unfold Url.getAll, Url.without.
  induction q as [|p q IH]; [reflexivity|].
  cbn [List.filter]. destruct (Url.named k p); cbn [negb List.map].
  - discriminate.
  - intros H. f_equal. exact (IH H).
Qed.

(** Setting a parameter to the one value it has changes nothing. *)
Lemma set_present k v q : Url.getAll k q = [v] -> Url.set k v q = q.
Proof.
  unfold Url.getAll.
  induction q as [|p q IH]; [discriminate|].
  cbn [List.filter Url.set]. destruct (Url.named k p) eqn:Hp; cbn [List.map].
  - intros H. injection H as Hv Hrest.
    fold (Url.getAll k q) in Hrest. rewrite (without_absent k q Hrest).
    apply named_true in Hp. destruct p as [k' v']. cbn in *. congruence.
  - intros H. f_equal. exact (IH H).
Qed.

Lemma searchParams_set_present k v u :
  Url.getAll k (Url.query u) = [v] -> Url.searchParams_set k v u = u.
Proof.
  intros H. unfold Url.searchParams_set, Url.with_query.
  rewrite (set_present k v _ H). destruct u; reflexivity.
Qed.

Lemma set_flag_ext w w' a p u :
  getAttribute w' a = getAttribute w a -> set_flag w' a p u = set_flag w a p u.
Proof. unfold set_flag. intros ->. reflexivity. Qed.

Lemma set_given_ext w w' a p u :
  getAttribute w' a = getAttribute w a -> set_given w' a p u = set_given w a p u.
Proof. unfold set_given. intros ->. reflexivity. Qed.

Lemma set_flag_present w a p u :
  (is_true (getAttribute w a) = true -> Url.getAll p (Url.query u) = ["1"]) ->
  set_flag w a p u = u.
Proof.
  unfold set_flag. destruct (is_true _); [|reflexivity].
  intros H. apply searchParams_set_present, H, eq_refl.
Qed.

Lemma set_given_present w a p u :
  (forall v, given (getAttribute w a) = Some v ->
     Url.getAll p (Url.query u) = [v]) ->
  set_given w a p u = u.
Proof.
  unfold set_given. destruct (given _) as [v|]; [|reflexivity].
  intros H. apply searchParams_set_present, H, eq_refl.
Qed.

End FixedPoint.

(** X16: resolving is stable: when the [url] attribute is replaced by a
    text that parses to the URL that the getter resolved, the other
    attributes being the same, the getter resolves to that same URL again;
    no parameter is added twice. *)
Theorem resolved_url_is_fixed_point (P : Platform) (w w' : Widget)
    (base base' : string) (u0 u : Url.t) :
  getAttribute w "url" = Some base -> base <> "" -> url_parse P base = Some u0 ->
  calendlyUrl_url P w = Normal (Some u) ->
  (forall a, a <> "url" -> getAttribute w' a = getAttribute w a) ->
  getAttribute w' "url" = Some base' -> base' <> "" ->
  url_parse P base' = Some u ->
  calendlyUrl_url P w' = Normal (Some u).
Proof.
  intros Hurl Hne Hparse Hres Hsame Hurl' Hne' Hparse'.
  rewrite (calendlyUrl_url_valid P w base u0 Hurl Hne Hparse) in Hres.
  injection Hres as Hu.
  rewrite (calendlyUrl_url_valid P w' base' u Hurl' Hne' Hparse').
  rewrite !(set_flag_ext w w'), !(set_given_ext w w') by (apply Hsame; discriminate).
  do 2 f_equal.
  assert (H1 : set_flag w "hide-details" "hide_event_type_details" u = u).
  { apply set_flag_present. intros Ht. rewrite <- Hu.
    rewrite !getAll_searchParams_set, !getAll_set_given, !getAll_set_flag.
    cbn [String.eqb Ascii.eqb Bool.eqb andb]. rewrite ?andb_false_r, Ht.
    repeat match goal with
           | |- context [given ?a] => destruct (given a)
           end; reflexivity. }
  rewrite H1.
  assert (H2 : set_flag w "hide-gdpr" "hide_gdpr_banner" u = u).
  { apply set_flag_present. intros Ht. rewrite <- Hu.
    rewrite !getAll_searchParams_set, !getAll_set_given, !getAll_set_flag.
    cbn [String.eqb Ascii.eqb Bool.eqb andb]. rewrite ?andb_false_r, Ht.
    repeat match goal with
           | |- context [given ?a] => destruct (given a)
           end; reflexivity. }
  rewrite H2.
  assert (H3 : set_given w "background-color" "background_color" u = u).
  { apply set_given_present. intros v Hv. rewrite <- Hu.
    rewrite !getAll_searchParams_set, !getAll_set_given, !getAll_set_flag.
    cbn [String.eqb Ascii.eqb Bool.eqb andb]. rewrite Hv.
    repeat match goal with
           | |- context [given ?a] => destruct (given a)
           end; reflexivity. }
  rewrite H3.
  assert (H4 : set_given w "text-color" "text_color" u = u).
  { apply set_given_present. intros v Hv. rewrite <- Hu.
    rewrite !getAll_searchParams_set, !getAll_set_given, !getAll_set_flag.
    cbn [String.eqb Ascii.eqb Bool.eqb andb]. rewrite Hv.
    repeat match goal with
           | |- context [given ?a] => destruct (given a)
           end; reflexivity. }
  rewrite H4.
  assert (H5 : set_given w "primary-color" "primary_color" u = u).
  { apply set_given_present. intros v Hv. rewrite <- Hu.
    rewrite !getAll_searchParams_set, !getAll_set_given, !getAll_set_flag.
    cbn [String.eqb Ascii.eqb Bool.eqb andb]. rewrite Hv. reflexivity. }
  rewrite H5.
  assert (H6 : Url.searchParams_set "embed_domain" (location_hostname P) u = u).
  { apply searchParams_set_present. rewrite <- Hu.
    rewrite !getAll_searchParams_set. reflexivity. }
  rewrite H6.
  apply searchParams_set_present. rewrite <- Hu.
  rewrite !getAll_searchParams_set. reflexivity.
Qed.

Lemma resolved_url_is_fixed_point_witness :
  let resolved :=
    "https://calendly.com/acme/intro?month=2024-01&hide_gdpr_banner=1&primary_color=FF8122&embed_domain=www.example.com&embed_type=Inline" in
  let w' := new_widget "k3x9" (<["url" := resolved]> sample_attributes) in
  calendlyUrl Reference.host sample_widget = Normal resolved /\
  exists u,
    calendlyUrl_url Reference.host sample_widget = Normal (Some u) /\
    url_parse Reference.host resolved = Some u /\
    calendlyUrl_url Reference.host w' = Normal (Some u) /\
    calendlyUrl Reference.host w' = Normal resolved.
Proof.
  intros resolved w'. split; [reflexivity|].
  assert (Hne : sample_base <> "") by discriminate.
  assert (Hne' : resolved <> "") by discriminate.
  eexists. split; [reflexivity|]. split; [reflexivity|].
  assert (Hsame : forall a, a <> "url" ->
            getAttribute w' a = getAttribute sample_widget a).
  { intros a Ha. unfold getAttribute, w'. cbn [attributes new_widget sample_widget].
    apply lookup_insert_ne. congruence. }
  assert (Hfix := resolved_url_is_fixed_point Reference.host sample_widget w'
                    sample_base resolved sample_url _ eq_refl Hne eq_refl eq_refl
                    Hsame eq_refl Hne' eq_refl).
  split; [exact Hfix|]. unfold calendlyUrl. rewrite Hfix. reflexivity.
Defined.

(** ** The shared channel *)

Section SharedChannel.

Variable P : Platform.

(** When the handler of instance [i] applies a height report, the instance
    gets the heights and the page nothing else. *)
Lemma call_page_height i event n w wd container iframe :
  includes "calendly.com" (origin event) = true ->
  get (data event) "event" = VStr "calendly.page_height" ->
  get_opt (get (data event) "payload") "height" = VNum n ->
  ToBoolean (VNum n) = true ->
  instances w !! i = Some wd ->
  Dom.getElementById "container" (shadowRoot wd) = Some container ->
  Dom.getElementById (iframeId wd) (shadowRoot wd) = Some iframe ->
  exists wd',
    instances (call i (handleMessage P i event) w) !! i = Some wd' /\
    Dom.height <$> Dom.getElementById "container" (shadowRoot wd')
    = Some (Some (Math_max n (minHeight wd))) /\
    Dom.height <$> Dom.getElementById (iframeId wd) (shadowRoot wd')
    = Some (Some (Math_max n (minHeight wd))).
Proof.
  intros Horigin Hevent Hheight Ht Hi Hc Hf.
  rewrite (call_present _ _ _ _ Hi). cbn [instances].
  rewrite lookup_insert_eq. eexists. split; [reflexivity|].
  rewrite (handleMessage_page_height P i event _ Horigin Hevent), Hheight.
  cbn [snd].
  destruct (updateHeight_number P n {| this := wd; env := global w |}
              container iframe Ht Hc Hf)
    as (c' & Hrun & _ & _ & Hsuffix & Hch & Hfh).
  rewrite Hrun. cbn [snd this] in *. split; [exact Hch|].
  unfold iframeId in *. rewrite Hsuffix in Hfh. exact Hfh.
Qed.

End SharedChannel.

(** X17: the channel is shared: a height report that passes the origin test
    reaches every subscribed instance, whatever the other instances on the
    page are.  Each instance whose structure holds the container and the
    frame gets [Math.max(height, minHeight)], with its own minimum height,
    written to both. *)
Theorem height_report_reaches_every_instance (P : Platform) (w : World)
    (i : nat) (wd : Widget) (event : MessageEvent) (n : number)
    (container iframe : Dom.Elem) :
  includes "calendly.com" (origin event) = true ->
  get (data event) "event" = VStr "calendly.page_height" ->
  get_opt (get (data event) "payload") "height" = VNum n ->
  ToBoolean (VNum n) = true ->
  NoDup (message_listeners (global w)) ->
  In i (message_listeners (global w)) ->
  instances w !! i = Some wd ->
  Dom.getElementById "container" (shadowRoot wd) = Some container ->
  Dom.getElementById (iframeId wd) (shadowRoot wd) = Some iframe ->
  exists wd',
    instances (step P w (PostMessage event)) !! i = Some wd' /\
    Dom.height <$> Dom.getElementById "container" (shadowRoot wd')
    = Some (Some (Math_max n (minHeight wd))) /\
    Dom.height <$> Dom.getElementById (iframeId wd) (shadowRoot wd')
    = Some (Some (Math_max n (minHeight wd))).
Proof.
  intros Horigin Hevent Hheight Ht Hnodup Hmem Hi Hc Hf.
  cbn [step]. unfold deliver.
  destruct (in_split _ _ Hmem) as (l1 & l2 & Hsplit).
  rewrite Hsplit in Hnodup |- *.
  apply NoDup_ListNoDup, List.NoDup_remove_2 in Hnodup.
  assert (Hl1 : ~ In i l1) by (intros H; apply Hnodup, in_or_app; left; exact H).
  assert (Hl2 : ~ In i l2) by (intros H; apply Hnodup, in_or_app; right; exact H).
  rewrite fold_left_app. cbn [fold_left].
  destruct (deliver_other P event i l1 Hl1 w) as (Ha & _).
  set (wa := fold_left _ l1 w) in *.
  assert (Hia : instances wa !! i = Some wd) by (rewrite Ha; exact Hi).
  destruct (call_page_height P i event n wa wd container iframe
              Horigin Hevent Hheight Ht Hia Hc Hf) as (wd' & Hb & Hch & Hfh).
  set (wb := call i _ wa) in *.
  destruct (deliver_other P event i l2 Hl2 wb) as (Hcc & _).
  exists wd'. split; [rewrite Hcc; exact Hb|]. split; [exact Hch|exact Hfh].
Qed.

Lemma height_report_reaches_every_instance_witness :
  let w := run Reference.host
             [Create 1 "k3x9" sample_attributes; Connect 1;
              Create 2 "p0q1" (<["height" := "1500"]> sample_attributes); Connect 2]
             empty_world in
  let w' := step Reference.host w (PostMessage (page_height "https://calendly.com" 1200)) in
  message_listeners (global w) = [1; 2] /\
  (exists wd1, instances w' !! 1 = Some wd1 /\
     Dom.height <$> Dom.getElementById "container" (shadowRoot wd1)
     = Some (Some (of_Z 1200))) /\
  (exists wd2, instances w' !! 2 = Some wd2 /\
     Dom.height <$> Dom.getElementById "container" (shadowRoot wd2)
     = Some (Some (of_Z 1500))).
Proof.
  intros w w'. split; [reflexivity|].
  assert (Hnodup : NoDup (message_listeners (global w)))
    by apply reachable_listeners_NoDup.
  assert (H1 : In 1 (message_listeners (global w))) by (left; reflexivity).
  assert (H2 : In 2 (message_listeners (global w))) by (right; left; reflexivity).
  assert (Hi1 : exists wd, instances w !! 1 = Some wd) by (eexists; reflexivity).
  assert (Hi2 : exists wd, instances w !! 2 = Some wd) by (eexists; reflexivity).
  destruct Hi1 as (wd1 & Hi1). destruct Hi2 as (wd2 & Hi2).
  pose proof Hi1 as Hv1. pose proof Hi2 as Hv2.
  vm_compute in Hv1, Hv2. injection Hv1 as Hv1. injection Hv2 as Hv2.
  split.
  - destruct (height_report_reaches_every_instance Reference.host w 1 wd1
                (page_height "https://calendly.com" 1200) (of_Z 1200)) with
      (container := Dom.element 1 "div" (Some "container") ["calendly-container"])
      (iframe := Dom.add_load_listener (Some 2)
                   (Dom.with_src
                      "https://calendly.com/acme/intro?month=2024-01&hide_gdpr_banner=1&primary_color=FF8122&embed_domain=www.example.com&embed_type=Inline"
                      (Dom.element 4 "iframe" (Some "calendly-iframe-k3x9")
                         ["calendly-iframe"])))
      as (wd' & Hw & Hc & _);
      try reflexivity; try assumption;
      try (rewrite <- Hv1; reflexivity).
    exists wd'. split; [exact Hw|].
    rewrite Hc. rewrite <- Hv1. reflexivity.
  - destruct (height_report_reaches_every_instance Reference.host w 2 wd2
                (page_height "https://calendly.com" 1200) (of_Z 1200)) with
      (container := Dom.element 6 "div" (Some "container") ["calendly-container"])
      (iframe := Dom.add_load_listener (Some 7)
                   (Dom.with_src
                      "https://calendly.com/acme/intro?month=2024-01&hide_gdpr_banner=1&primary_color=FF8122&embed_domain=www.example.com&embed_type=Inline"
                      (Dom.element 9 "iframe" (Some "calendly-iframe-p0q1")
                         ["calendly-iframe"])))
      as (wd' & Hw & Hc & _);
      try reflexivity; try assumption;
      try (rewrite <- Hv2; reflexivity).
    exists wd'. split; [exact Hw|].
    rewrite Hc. rewrite <- Hv2. reflexivity.
Defined.
